(** * rename_photos.py: a shallow embedding and its specification

    The program renames photographs after their capture date.  This file
    embeds [src/rename_photos.py] function by function and proves (or
    refutes) the properties its specification states about the date
    resolver, the target namer, the batch planner and the executor.

    Conventions of the embedding:
    - Python [str] is [string] (a sequence of bytes).  The [str] methods
      and the [os.path] functions are written out for POSIX, following
      CPython's [posixpath]; they agree with Python on ASCII text.
    - The filesystem is a finite map from path to inode; the metadata
      readers, the directory listings and the two mutating calls
      ([os.makedirs], [shutil.move]) are collaborators gathered in [env].
    - Library functions whose definition is not part of the repository
      ([datetime.strptime], [datetime.strftime], [json.loads],
      [datetime.fromtimestamp]) are section variables; [Module Sample]
      instantiates them for the concrete runs.
    - Effects are threaded by a small state monad with exceptions; calls to
      [logger] write to stderr only, never raise and never influence control
      flow, and are left out. *)

From Stdlib Require Import ZArith Ascii String List Lia.
From stdpp Require Import base option list gmap strings pretty.

Open Scope string_scope.
Open Scope list_scope.

(** ** Python [str] methods *)

Module PyStr.

Definition chr_eqb (a b : ascii) : bool := Ascii.eqb a b.

(** [c in s] for a one-character [c]. *)
Fixpoint contains (c : ascii) (s : string) : bool :=
  match s with
  | "" => false
  | String a r => chr_eqb a c || contains c r
  end.

(** [all(P(ch) for ch in s)] and [any(...)]. *)
Fixpoint all_chars (P : ascii -> bool) (s : string) : bool :=
  match s with
  | "" => true
  | String a r => P a && all_chars P r
  end.

Fixpoint any_char (P : ascii -> bool) (s : string) : bool :=
  match s with
  | "" => false
  | String a r => P a || any_char P r
  end.

(** [s.startswith(p)], [s.endswith(p)] and [p in s] for strings. *)
Fixpoint startswith (p s : string) : bool :=
  match p, s with
  | "", _ => true
  | String a p', String b s' => chr_eqb b a && startswith p' s'
  | String _ _, "" => false
  end.

Fixpoint endswith_chr (c : ascii) (s : string) : bool :=
  match s with
  | "" => false
  | String a "" => chr_eqb a c
  | String _ r => endswith_chr c r
  end.

Fixpoint is_substring (p s : string) : bool :=
  startswith p s ||
  match s with
  | "" => false
  | String _ r => is_substring p r
  end.

(** [s.split(c)] for a one-character separator: never the empty list. *)
Fixpoint split (c : ascii) (s : string) : list string :=
  match s with
  | "" => [""]
  | String a r =>
      if chr_eqb a c then "" :: split c r
      else match split c r with
           | h :: t => String a h :: t
           | [] => [String a ""]
           end
  end.

(** [s.split(c)[0]]. *)
Definition split_first (c : ascii) (s : string) : string :=
  hd "" (split c s).

(** [sep.join(parts)]. *)
Fixpoint join (sep : string) (parts : list string) : string :=
  match parts with
  | [] => ""
  | [p] => p
  | p :: rest => p +:+ sep +:+ join sep rest
  end.

(** [s.lstrip(chars)] and [s.rstrip(chars)], the character set given as a
    predicate. *)
Fixpoint lstrip (P : ascii -> bool) (s : string) : string :=
  match s with
  | "" => ""
  | String a r => if P a then lstrip P r else s
  end.

Fixpoint rstrip (P : ascii -> bool) (s : string) : string :=
  match s with
  | "" => ""
  | String a r =>
      match rstrip P r with
      | "" => if P a then "" else String a ""
      | r' => String a r'
      end
  end.

(** ASCII characters for which [str.isspace] holds: TAB, LF, VT, FF, CR,
    FS, GS, RS, US and the space. *)
Definition isspace (c : ascii) : bool :=
  let n := nat_of_ascii c in
  (Nat.leb 9 n && Nat.leb n 13) || (Nat.leb 28 n && Nat.leb n 32).

(** [s.strip()]. *)
Definition strip (s : string) : string := rstrip isspace (lstrip isspace s).

(** [s.lower()] on ASCII letters. *)
Definition lower_chr (c : ascii) : ascii :=
  let n := nat_of_ascii c in
  if Nat.leb 65 n && Nat.leb n 90 then ascii_of_nat (n + 32) else c.

Fixpoint lower (s : string) : string :=
  match s with
  | "" => ""
  | String a r => String (lower_chr a) (lower r)
  end.

(** [s[s.rfind(c)+1:]] and [s[:s.rfind(c)+1]]: the part after the last
    [c] (all of [s] when there is none) and the part up to and including
    it (empty when there is none). *)
Fixpoint after_last (c : ascii) (s : string) : string :=
  match s with
  | "" => ""
  | String a r =>
      if contains c r then after_last c r
      else if chr_eqb a c then r else s
  end.

Fixpoint upto_last (c : ascii) (s : string) : string :=
  match s with
  | "" => ""
  | String a r =>
      if contains c r then String a (upto_last c r)
      else if chr_eqb a c then String a "" else ""
  end.

(** [bool(s)]. *)
Definition nonempty (s : string) : bool :=
  match s with "" => false | _ => true end.

End PyStr.

(** ** [os.path] on POSIX *)

Module OsPath.
Import PyStr.

Definition sep : ascii := "/"%char.
Definition extsep : ascii := "."%char.
Definition is_sep (c : ascii) : bool := chr_eqb c sep.
Definition is_dot (c : ascii) : bool := chr_eqb c extsep.

(** [os.path.isabs]. *)
Definition isabs (p : string) : bool := startswith "/" p.

(** [os.path.join(a, b)]: an absolute [b] replaces [a]. *)
Definition join (a b : string) : string :=
  if startswith "/" b then b
  else if negb (nonempty a) || endswith_chr sep a then a +:+ b
  else a +:+ "/" +:+ b.

(** [os.path.dirname]: the head up to the last separator, its trailing
    separators removed unless it consists of separators only. *)
Definition dirname (p : string) : string :=
  let head := upto_last sep p in
  if nonempty head && negb (all_chars is_sep head)
  then rstrip is_sep head
  else head.

(** [os.path.splitext(p)[1]]: the extension starts at the last dot of the
    last component, provided a character other than a dot precedes it
    there. *)
Definition splitext_ext (p : string) : string :=
  let name := after_last sep p in
  if contains extsep name
     && any_char (fun c => negb (is_dot c)) (upto_last extsep name)
  then String extsep (after_last extsep name)
  else "".

(** One step of [normpath]'s loop over the components; [new_comps] is
    kept last-component first. *)
Definition norm_step (initial_slashes : nat) (new_comps : list string)
    (comp : string) : list string :=
  if String.eqb comp "" || String.eqb comp "." then new_comps
  else if negb (String.eqb comp "..")
          || (Nat.eqb initial_slashes 0 && bool_decide (new_comps = []))
          || match new_comps with
             | last :: _ => String.eqb last ".."
             | [] => false
             end
  then comp :: new_comps
  else tl new_comps.

(** POSIX keeps exactly two leading slashes and folds three or more into
    one. *)
Definition initial_slashes (path : string) : nat :=
  if startswith "/" path then
    if startswith "//" path && negb (startswith "///" path) then 2 else 1
  else 0.

Definition repeat_sep (n : nat) : string :=
  match n with 0 => "" | 1 => "/" | _ => "//" end.

(** [os.path.normpath]. *)
Definition normpath (path : string) : string :=
  if negb (nonempty path) then "."
  else
    let n := initial_slashes path in
    let comps := fold_left (norm_step n) (split sep path) [] in
    let res := repeat_sep n +:+ PyStr.join "/" (rev comps) in
    if nonempty res then res else ".".

(** [os.path.abspath], with the process's working directory. *)
Definition abspath (cwd path : string) : string :=
  normpath (if isabs path then path else join cwd path).

End OsPath.

Module PathExamples.
Import PyStr OsPath.

Example split_ex : split "+" "2023:05:01 10:20:30+02:00" = ["2023:05:01 10:20:30"; "02:00"].
Proof. reflexivity. Qed.

Example strip_ex : strip "  a b	" = "a b".
Proof. reflexivity. Qed.

Example dirname_ex :
  dirname "/photos/img1.jpg" = "/photos" /\ dirname "/img1.jpg" = "/"
  /\ dirname "img1.jpg" = "" /\ dirname "/a//b" = "/a" /\ dirname "//x" = "//".
Proof. repeat split; reflexivity. Qed.

Example splitext_ex :
  splitext_ext "/photos/img1.JPG" = ".JPG" /\ splitext_ext "/a.b/c" = ""
  /\ splitext_ext "/a/.bashrc" = "" /\ splitext_ext "/a/..x.tar.gz" = ".gz"
  /\ splitext_ext "/a/b." = ".".
Proof. repeat split; reflexivity. Qed.

Example join_ex :
  join "/photos" "x.jpg" = "/photos/x.jpg" /\ join "/" "x.jpg" = "/x.jpg"
  /\ join "/photos" "/tmp/x.jpg" = "/tmp/x.jpg" /\ join "" "x.jpg" = "x.jpg".
Proof. repeat split; reflexivity. Qed.

Example normpath_ex :
  normpath "/photos/zz/../x.jpg" = "/photos/x.jpg"
  /\ normpath "//a/./b//c/" = "//a/b/c" /\ normpath "///a" = "/a"
  /\ normpath "/.." = "/" /\ normpath "a/../.." = ".." /\ normpath "" = "."
  /\ normpath "a/.." = ".".
Proof. repeat split; reflexivity. Qed.

End PathExamples.

(** ** Data model *)

(** A naive calendar date-time, as [datetime.datetime] holds it. *)
Record datetime := Datetime {
  year : nat; month : nat; day : nat;
  hour : nat; minute : nat; second : nat
}.

(** A raised exception: its class and [str(e)]. *)
Record exn := Exception { exn_class : string; exn_str : string }.

(** The outcome of a library call that may raise. *)
Inductive result (A : Type) : Type :=
| Ok (a : A)
| Raise (e : exn).
Arguments Ok {A} a.
Arguments Raise {A} e.

#[export] Instance result_ret : MRet result := fun A a => Ok a.
#[export] Instance result_bind : MBind result := fun A B f r =>
  match r with
  | Ok a => f a
  | Raise e => Raise e
  end.

(** What [json.loads] returns. *)
#[warning="-register-all"]
Inductive json : Type :=
| JNull
| JBool (b : bool)
| JNum (z : Z)
| JStr (s : string)
| JArr (l : list json)
| JObj (m : gmap string json).

(** [subprocess.CompletedProcess]. *)
Record completed_process := CompletedProcess {
  returncode : Z; stdout : string; stderr : string
}.

(** The filesystem: each path string that names something, spelled as the
    program hands it to the operating system, maps to its inode; a string
    that is not a key names nothing.  [os.path.exists], [isfile], [isdir]
    and [getmtime] read it. *)
Inductive kind := File | Dir.
Record inode := Inode { i_kind : kind; i_mtime : Z }.

Abbreviation filesystem := (gmap string inode).

Module Os.

Definition exists_ (fs : filesystem) (p : string) : bool :=
  bool_decide (is_Some (fs !! p)).

Definition isfile (fs : filesystem) (p : string) : bool :=
  match fs !! p with
  | Some i => match i_kind i with File => true | Dir => false end
  | None => false
  end.

Definition isdir (fs : filesystem) (p : string) : bool :=
  match fs !! p with
  | Some i => match i_kind i with Dir => true | File => false end
  | None => false
  end.

Definition getmtime (fs : filesystem) (p : string) : result Z :=
  match fs !! p with
  | Some i => Ok (i_mtime i)
  | None => Raise (Exception "FileNotFoundError" p)
  end.

End Os.

(** The collaborators of one run.  [env_exifread] is [None] when the import
    of [exifread] failed; otherwise it stands for opening the file and
    [exifread.process_file], giving [str(tags[tag])] for each tag.
    [env_exiftool] stands for [subprocess.run] of the external tool.  The
    two mutating calls return the new filesystem together with the exception
    they raised, if any. *)
Record env := Env {
  env_cwd : string;
  env_exifread : option (string -> result (gmap string string));
  env_exiftool : string -> result completed_process;
  env_listdir : string -> list string;
  env_walk : string -> list (string * list string * list string);
  env_makedirs : filesystem -> string -> option exn * filesystem;
  env_move : filesystem -> string -> string -> option exn * filesystem
}.

(** The interactions a run has with its collaborators, oldest first. *)
Inductive event :=
| EvExifread (path : string)
| EvExiftool (path : string)
| EvGetmtime (path : string)
| EvMakedirs (path : string)
| EvMove (src dst : string)
| EvPrint (line : string).

Record state := State { st_fs : filesystem; st_trace : list event }.

(** ** The monad of the program: state, exceptions and divergence *)

Inductive outcome (A : Type) : Type :=
| Val (a : A)
| Exn (e : exn)
| Loop.
Arguments Val {A} a.
Arguments Exn {A} e.
Arguments Loop {A}.

Definition M (A : Type) : Type := state -> outcome A * state.

#[export] Instance M_ret : MRet M := fun A a s => (Val a, s).
#[export] Instance M_bind : MBind M := fun A B f m s =>
  match m s with
  | (Val a, s') => f a s'
  | (Exn e, s') => (Exn e, s')
  | (Loop, s') => (Loop, s')
  end.

(** [try: body except Exception as e: handler(e)]. *)
Definition try_except {A} (body : M A) (handler : exn -> M A) : M A :=
  fun s =>
    match body s with
    | (Exn e, s') => handler e s'
    | r => r
    end.

Definition emit (ev : event) : M unit :=
  fun s => (Val tt, State (st_fs s) (st_trace s ++ [ev])).

Definition get_fs : M filesystem := fun s => (Val (st_fs s), s).

Definition print (line : string) : M unit := emit (EvPrint line).

(** [for x in xs: acc = body(acc, x)]. *)
Fixpoint for_each {A B} (body : B -> A -> M B) (xs : list A) (acc : B) : M B :=
  match xs with
  | [] => mret acc
  | x :: rest => acc' ← body acc x; for_each body rest acc'
  end.

(** The lines printed on stdout, in order. *)
Definition printed (tr : list event) : list string :=
  omap (fun ev => match ev with EvPrint l => Some l | _ => None end) tr.

(** An event that reads metadata. *)
Definition is_read (ev : event) : bool :=
  match ev with
  | EvExifread _ | EvExiftool _ | EvGetmtime _ => true
  | _ => false
  end.

(** An event that changes the filesystem. *)
Definition is_mutation (ev : event) : bool :=
  match ev with
  | EvMakedirs _ | EvMove _ _ => true
  | _ => false
  end.

(** ** Python values read back from the external tool *)

Module PyVal.
Import PyStr.

(** [bool(v)]. *)
Definition truthy (v : json) : bool :=
  match v with
  | JNull => false
  | JBool b => b
  | JNum z => negb (Z.eqb z 0)
  | JStr s => nonempty s
  | JArr l => negb (bool_decide (l = []))
  | JObj m => negb (bool_decide (m = ∅))
  end.

Definition type_error (msg : string) : exn := Exception "TypeError" msg.

(** [key in v], for a string [key]. *)
Definition contains_key (key : string) (v : json) : result bool :=
  match v with
  | JObj m => Ok (bool_decide (is_Some (m !! key)))
  | JStr s => Ok (is_substring key s)
  | JArr l =>
      Ok (existsb (fun x => match x with
                            | JStr s => String.eqb s key
                            | _ => false
                            end) l)
  | _ => Raise (type_error "argument is not iterable")
  end.

(** [v[key]], for a string [key]. *)
Definition getitem (v : json) (key : string) : result json :=
  match v with
  | JObj m =>
      match m !! key with
      | Some x => Ok x
      | None => Raise (Exception "KeyError" key)
      end
  | JStr _ => Raise (type_error "string indices must be integers")
  | JArr _ => Raise (type_error "list indices must be integers or slices, not str")
  | _ => Raise (type_error "object is not subscriptable")
  end.

(** [val.split("+")[0].split("-")[0].strip()]: only [str] has [split]. *)
Definition strip_tz (s : string) : string :=
  strip (split_first "-" (split_first "+" s)).

Definition split_strip (v : json) : result string :=
  match v with
  | JStr s => Ok (strip_tz s)
  | _ => Raise (Exception "AttributeError" "object has no attribute 'split'")
  end.

End PyVal.

(** ** The program *)

(** [argparse.Namespace] as [parse_args] returns it. *)
Record namespace := Namespace {
  paths : list string;
  recursive : bool;
  simulate : bool;
  use_filetime : bool;
  format : string;
  extensions : string;
  verbose : bool
}.

Definition DEFAULT_EXTENSIONS : list string :=
  ["jpg"; "jpeg"; "heic"; "cr2"; "nef"; "arw"; "raf"; "dng"; "png"].

Definition default_format : string := "%Y-%m-%d_%H-%M-%S".

(** The pattern both readers parse with. *)
Definition exif_pattern : string := "%Y:%m:%d %H:%M:%S".

Section Program.

(** [datetime.strptime(val, fmt)], [dt.strftime(fmt)], [json.loads(text)]
    and [datetime.fromtimestamp(ts)]. *)
Variable strptime : string -> string -> result datetime.
Variable strftime : datetime -> string -> result string.
Variable json_loads : string -> result json.
Variable fromtimestamp : Z -> result datetime.

Variable E : env.

Import PyStr.

(** [os.path.splitext(p)[1].lstrip(".")]. *)
Definition ext_of (p : string) : string :=
  lstrip OsPath.is_dot (OsPath.splitext_ext p).

Definition in_extset (extset : gset string) (p : string) : bool :=
  bool_decide (lower (ext_of p) ∈ extset).

(** [iter_candidates], forced by [list(...)]; it only reads the
    filesystem. *)
Definition iter_candidates (fs : filesystem) (paths : list string)
    (recursive : bool) (extset : gset string) : list string :=
  flat_map (fun p =>
    if Os.isfile fs p then
      if in_extset extset p then [OsPath.abspath (env_cwd E) p] else []
    else if Os.isdir fs p then
      if recursive then
        flat_map (fun '(root, _, files) =>
          flat_map (fun fn =>
            if in_extset extset fn
            then [OsPath.abspath (env_cwd E) (OsPath.join root fn)]
            else []) files) (env_walk E p)
      else
        flat_map (fun fn =>
          let full := OsPath.join p fn in
          if Os.isfile fs full && in_extset extset full
          then [OsPath.abspath (env_cwd E) full]
          else []) (env_listdir E p)
    else []) paths.

(** The loop of [parse_exif_date_exifread] over the tag names: the first
    tag that is present and parses wins; a tag that does not parse is
    passed over. *)
Fixpoint exifread_scan (tags : gmap string string) (names : list string)
    : option datetime :=
  match names with
  | [] => None
  | tag :: rest =>
      match tags !! tag with
      | Some val =>
          match strptime val exif_pattern with
          | Ok dt => Some dt
          | Raise _ => exifread_scan tags rest
          end
      | None => exifread_scan tags rest
      end
  end.

Definition exifread_tags : list string :=
  ["EXIF DateTimeOriginal"; "EXIF DateTimeDigitized"; "Image DateTime"].

Definition parse_exif_date_exifread (path : string) : M (option datetime) :=
  match env_exifread E with
  | None => mret None
  | Some process_file =>
      emit (EvExifread path);;
      match process_file path with
      | Ok tags => mret (exifread_scan tags exifread_tags)
      | Raise _ => mret None
      end
  end.

(** The loop of [parse_exif_date_exiftool] over the keys.  A value that
    does not parse is passed over; any other exception leaves the loop
    (and is caught by the enclosing handler). *)
Fixpoint exiftool_scan (info : json) (keys : list string)
    : result (option datetime) :=
  match keys with
  | [] => Ok None
  | key :: rest =>
      present ← PyVal.contains_key key info;
      if (present : bool) then
        v ← PyVal.getitem info key;
        if PyVal.truthy v then
          val ← PyVal.split_strip v;
          match strptime val exif_pattern with
          | Ok dt => Ok (Some dt)
          | Raise _ => exiftool_scan info rest
          end
        else exiftool_scan info rest
      else exiftool_scan info rest
  end.

Definition exiftool_keys : list string :=
  ["DateTimeOriginal"; "CreateDate"; "DateTime"].

(** What follows [out = proc.stdout.strip()]. *)
Definition exiftool_decode (out : string) : option datetime :=
  if negb (nonempty out) then None
  else
    match json_loads out with
    | Raise _ => None
    | Ok data =>
        match data with
        | JArr (info :: _) =>
            match exiftool_scan info exiftool_keys with
            | Ok r => r
            | Raise _ => None
            end
        | _ => None
        end
    end.

Definition parse_exif_date_exiftool (path : string) : M (option datetime) :=
  emit (EvExiftool path);;
  match env_exiftool E path with
  | Raise _ => mret None
  | Ok proc => mret (exiftool_decode (strip (stdout proc)))
  end.

Definition get_image_datetime (path : string) (use_filetime : bool)
    : M (option datetime) :=
  dt ← parse_exif_date_exifread path;
  match dt with
  | Some _ => mret dt
  | None =>
      dt2 ← parse_exif_date_exiftool path;
      match dt2 with
      | Some _ => mret dt2
      | None =>
          if use_filetime then
            emit (EvGetmtime path);;
            fs ← get_fs;
            match Os.getmtime fs path with
            | Ok ts =>
                match fromtimestamp ts with
                | Ok dt3 => mret (Some dt3)
                | Raise _ => mret None
                end
            | Raise _ => mret None
            end
          else mret None
      end
  end.

(** The candidate probed at a given counter. *)
Definition numbered (directory base_name ext : string) (counter : nat)
    : string :=
  OsPath.join directory
    (base_name +:+ "_" +:+ pretty counter +:+ "." +:+ ext).

(** The [while True] loop of [unique_target_path], run for at most [fuel]
    iterations; [None] when it has not returned by then. *)
Fixpoint probe (fs : filesystem) (directory base_name ext : string)
    (fuel counter : nat) : option string :=
  match fuel with
  | 0 => None
  | S fuel' =>
      let candidate := numbered directory base_name ext counter in
      if negb (Os.exists_ fs candidate) then Some candidate
      else probe fs directory base_name ext fuel' (S counter)
  end.

(** [unique_target_path] on a given filesystem.  The loop is given one
    iteration more than there are paths in the filesystem, which
    [probe_returns] shows is always enough. *)
Definition unique_target_path_on (fs : filesystem)
    (directory base_name ext : string) : option string :=
  let candidate := OsPath.join directory (base_name +:+ "." +:+ ext) in
  if negb (Os.exists_ fs candidate) then Some candidate
  else probe fs directory base_name ext (S (size fs)) 1.

Definition unique_target_path (directory base_name ext : string) : M string :=
  fun s =>
    match unique_target_path_on (st_fs s) directory base_name ext with
    | Some candidate => (Val candidate, s)
    | None => (Loop, s)
    end.

Definition makedirs (d : string) : M unit :=
  fun s =>
    let '(r, fs') := env_makedirs E (st_fs s) d in
    (match r with None => Val tt | Some e => Exn e end,
     State fs' (st_trace s ++ [EvMakedirs d])).

Definition move (src dst : string) : M unit :=
  fun s =>
    let '(r, fs') := env_move E (st_fs s) src dst in
    (match r with None => Val tt | Some e => Exn e end,
     State fs' (st_trace s ++ [EvMove src dst])).

Definition rename_file (src dst : string) (simulate : bool) : M unit :=
  if simulate then
    print ("SIMULATE: " +:+ src +:+ " -> " +:+ dst)
  else
    makedirs (OsPath.dirname dst);;
    move src dst;;
    print ("RENAMED: " +:+ src +:+ " -> " +:+ dst).

(** The two lists [main] builds: [mapping] and [failures]. *)
Definition plan : Type := list (string * string) * list (string * string).

Definition lift {A} (r : result A) : M A :=
  fun s => (match r with Ok a => Val a | Raise e => Exn e end, s).

(** The body of the [try] statement in the planning loop. *)
Definition plan_try (args : namespace) (acc : plan) (src : string) : M plan :=
  let '(mapping, failures) := acc in
  dt ← get_image_datetime src (use_filetime args);
  match dt with
  | None => mret (mapping, failures ++ [(src, "no-date")])
  | Some dt =>
      base ← lift (strftime dt (format args));
      let directory := OsPath.dirname src in
      let ext := ext_of src in
      target ← unique_target_path directory base ext;
      if String.eqb (OsPath.abspath (env_cwd E) src)
                    (OsPath.abspath (env_cwd E) target)
      then mret (mapping, failures)
      else mret (mapping ++ [(src, target)], failures)
  end.

(** One iteration of the planning loop. *)
Definition plan_step (args : namespace) (acc : plan) (src : string) : M plan :=
  try_except (plan_try args acc src)
    (fun e => mret (fst acc, snd acc ++ [(src, exn_str e)])).

(** The planning loop of [main]: [mapping] and [failures] start empty. *)
Definition plan_batch (args : namespace) (files : list string) : M plan :=
  for_each (plan_step args) files ([], []).

(** The body of the execution loop. *)
Definition exec_step (failures : list (string * string))
    (entry : string * string) : M (list (string * string)) :=
  let '(s, t) := entry in
  try_except
    (rename_file s t false;; mret failures)
    (fun e => mret (failures ++ [(s, exn_str e)])).

Definition extset_of (extensions : string) : gset string :=
  list_to_set
    (map (fun e => lower (strip e))
       (List.filter (fun e => nonempty (strip e)) (split "," extensions))).

(** The execution loop of [main]. *)
Definition exec_batch (mapping failures : list (string * string))
    : M (list (string * string)) :=
  for_each exec_step mapping failures.

Definition planned_line (entry : string * string) : string :=
  fst entry +:+ " -> " +:+ snd entry.

Definition main (args : namespace) : M Z :=
  let extset := extset_of (extensions args) in
  fs ← get_fs;
  let files := iter_candidates fs (paths args) (recursive args) extset in
  if bool_decide (files = []) then mret 0%Z
  else
    '(mapping, failures) ← plan_batch args files;
    if bool_decide (mapping = []) then mret 0%Z
    else
      print "Planned renames:";;
      for_each (fun _ entry => print (planned_line entry)) mapping tt;;
      if simulate args then
        print "Simulation mode; no files renamed.";;
        mret 0%Z
      else
        failures ← exec_batch mapping failures;
        if negb (bool_decide (failures = [])) then mret 2%Z
        else mret 0%Z.

End Program.

(** ** Concrete library functions and collaborators for the example runs *)

Module Sample.
Import PyStr.

Definition value_error (msg : string) : exn := Exception "ValueError" msg.

(** Decimal digits. *)
Definition digit_of (c : ascii) : option nat :=
  let n := nat_of_ascii c in
  if Nat.leb 48 n && Nat.leb n 57 then Some (n - 48) else None.

Fixpoint digits_from (acc : nat) (s : string) : option nat :=
  match s with
  | "" => Some acc
  | String c r =>
      match digit_of c with
      | Some d => digits_from (10 * acc + d) r
      | None => None
      end
  end.

Definition number (s : string) : option nat :=
  match s with
  | "" => None
  | _ => digits_from 0 s
  end.

Definition is_leap (y : nat) : bool :=
  (Nat.eqb (y mod 4) 0 && negb (Nat.eqb (y mod 100) 0)) || Nat.eqb (y mod 400) 0.

Definition days_in_month (y m : nat) : nat :=
  match m with
  | 2 => if is_leap y then 29 else 28
  | 4 | 6 | 9 | 11 => 30
  | _ => 31
  end.

Definition valid_datetime (dt : datetime) : bool :=
  Nat.leb 1 (year dt) && Nat.ltb (year dt) (100 * 100)
  && Nat.leb 1 (month dt) && Nat.leb (month dt) 12
  && Nat.leb 1 (day dt) && Nat.leb (day dt) (days_in_month (year dt) (month dt))
  && Nat.leb (hour dt) 23 && Nat.leb (minute dt) 59 && Nat.leb (second dt) 59.

(** [datetime.strptime] for the pattern of the two readers, on values in
    the zero-padded 19-character form [YYYY:MM:DD HH:MM:SS]; on these it
    returns what Python returns.  Other values and other patterns are
    rejected. *)
Definition strptime (val fmt : string) : result datetime :=
  let bad := Raise (value_error ("time data does not match format: " +:+ val)) in
  if negb (String.eqb fmt exif_pattern) then bad
  else if negb (Nat.eqb (String.length val) 19) then bad
  else
    let field i n := number (substring i n val) in
    let lit i c := String.eqb (substring i 1 val) c in
    match field 0 4, field 5 2, field 8 2, field 11 2, field 14 2, field 17 2 with
    | Some y, Some mo, Some d, Some h, Some mi, Some s =>
        let dt := Datetime y mo d h mi s in
        if lit 4 ":" && lit 7 ":" && lit 10 " " && lit 13 ":" && lit 16 ":"
           && valid_datetime dt
        then Ok dt else bad
    | _, _, _, _, _, _ => bad
    end.

(** A number in decimal, padded with zeros to [width] digits. *)
Fixpoint zeros (n : nat) : string :=
  match n with 0 => "" | S k => String "0" (zeros k) end.

Definition padded (width n : nat) : string :=
  let s := pretty n in zeros (width - String.length s) +:+ s.

(** [dt.strftime(fmt)] as CPython gives it with glibc, for patterns in
    which a percent sign is followed by one of [Y m d H M S %], by a
    letter glibc has no conversion for (such as [Q]), or by nothing: the
    six numeric directives and [%%] are expanded, the year without
    padding and the other fields on two digits, and everything else is
    copied as it stands.  It never raises.  The other conversions of
    glibc (names of days and months, flags, widths) are not part of this
    sample. *)
Definition directive (dt : datetime) (c : ascii) : option string :=
  if chr_eqb c "Y" then Some (pretty (year dt))
  else if chr_eqb c "m" then Some (padded 2 (month dt))
  else if chr_eqb c "d" then Some (padded 2 (day dt))
  else if chr_eqb c "H" then Some (padded 2 (hour dt))
  else if chr_eqb c "M" then Some (padded 2 (minute dt))
  else if chr_eqb c "S" then Some (padded 2 (second dt))
  else if chr_eqb c "%" then Some "%"
  else None.

Fixpoint strftime_go (dt : datetime) (fmt : string) : string :=
  match fmt with
  | "" => ""
  | String "%" (String c r) =>
      match directive dt c with
      | Some s => s +:+ strftime_go dt r
      | None => String "%" (String c (strftime_go dt r))
      end
  | String c r => String c (strftime_go dt r)
  end.

Definition strftime (dt : datetime) (fmt : string) : result string :=
  Ok (strftime_go dt fmt).

(** Whether every percent sign of a pattern starts a directive of the
    sample. *)
Fixpoint only_directives (fmt : string) : bool :=
  match fmt with
  | "" => true
  | String "%" (String c r) =>
      existsb (chr_eqb c) (list_ascii_of_string "YmdHMS%") && only_directives r
  | String "%" "" => false
  | String _ r => only_directives r
  end.

(** [dt.strftime(fmt)] where the C library reports a pattern with an
    unknown directive as invalid instead of copying it, as the runtime of
    Windows does: CPython then raises [ValueError]. *)
Definition strict_strftime (dt : datetime) (fmt : string) : result string :=
  if only_directives fmt then strftime dt fmt
  else Raise (value_error "Invalid format string").

(** [json.loads] on the texts of a table: what the tool printed and the
    value the text denotes. *)
Definition json_loads (table : list (string * json)) (text : string)
    : result json :=
  match List.find (fun '(t, _) => String.eqb t text) table with
  | Some (_, v) => Ok v
  | None => Raise (Exception "JSONDecodeError" "Expecting value")
  end.

(** [datetime.fromtimestamp] for a process whose local time is UTC, the
    timestamp in whole seconds. *)
Definition fromtimestamp (ts : Z) : result datetime :=
  let days := (ts / 86400)%Z in
  let secs := (ts mod 86400)%Z in
  let z := (days + 719468)%Z in
  let era := (z / 146097)%Z in
  let doe := (z - era * 146097)%Z in
  let yoe := ((doe - doe / 1460 + doe / 36524 - doe / 146096) / 365)%Z in
  let doy := (doe - (365 * yoe + yoe / 4 - yoe / 100))%Z in
  let mp := ((5 * doy + 2) / 153)%Z in
  let d := (doy - (153 * mp + 2) / 5 + 1)%Z in
  let m := (if (mp <? 10)%Z then mp + 3 else mp - 9)%Z in
  let y := (yoe + era * 400 + (if (m <=? 2)%Z then 1 else 0))%Z in
  if ((1 <=? y) && (y <=? 9999))%Z then
    Ok (Datetime (Z.to_nat y) (Z.to_nat m) (Z.to_nat d)
          (Z.to_nat (secs / 3600)) (Z.to_nat (secs mod 3600 / 60))
          (Z.to_nat (secs mod 60)))
  else Raise (value_error "year is out of range").

(** [os.makedirs(d, exist_ok=True)]: [d] and its missing ancestors become
    directories; a file in the way raises. *)
Fixpoint ancestors (fuel : nat) (d : string) : list string :=
  match fuel with
  | 0 => []
  | S k =>
      if nonempty d && negb (String.eqb (OsPath.dirname d) d)
      then d :: ancestors k (OsPath.dirname d)
      else []
  end.

Definition makedirs (fs : filesystem) (d : string) : option exn * filesystem :=
  let chain := ancestors (String.length d) d in
  if existsb (Os.isfile fs) chain
  then (Some (Exception "FileExistsError" d), fs)
  else (None,
        fold_right (fun p acc =>
          if Os.exists_ acc p then acc else <[p := Inode Dir 0]> acc) fs chain).

(** [shutil.move(src, dst)] within one filesystem: a rename, into [dst]
    when [dst] is a directory, replacing [dst] when it is a file. *)
Definition move (fs : filesystem) (src dst : string)
    : option exn * filesystem :=
  match fs !! src with
  | None => (Some (Exception "FileNotFoundError" src), fs)
  | Some i =>
      if Os.isdir fs dst then
        let real_dst := OsPath.join dst (after_last OsPath.sep src) in
        if Os.exists_ fs real_dst
        then (Some (Exception "Error"
                      ("Destination path '" +:+ real_dst +:+ "' already exists")), fs)
        else (None, <[real_dst := i]> (delete src fs))
      else (None, <[dst := i]> (delete src fs))
  end.

(** A run in [/photos]: [tags] gives the metadata the primary reader
    finds in each file (none for a file not listed), [tool] what the
    external tool answers. *)
Definition environment (tags : list (string * list (string * string)))
    (tool : string -> result completed_process)
    (listing : list string) : env :=
  {| env_cwd := "/photos";
     env_exifread := Some (fun p =>
       match List.find (fun '(q, _) => String.eqb q p) tags with
       | Some (_, kv) => Ok (list_to_map kv)
       | None => Ok ∅
       end);
     env_exiftool := tool;
     env_listdir := fun d => if String.eqb d "/photos" then listing else [];
     env_walk := fun d =>
       if String.eqb d "/photos" then [("/photos", [], listing)] else [];
     env_makedirs := makedirs;
     env_move := move |}.

(** The external tool is not installed. *)
Definition no_tool (p : string) : result completed_process :=
  Raise (Exception "FileNotFoundError" "exiftool").

(** A directory holding the given files, all last modified at [mtime]. *)
Definition directory_of (files : list string) (mtime : Z) : filesystem :=
  list_to_map (("/photos", Inode Dir mtime)
               :: map (fun f => (OsPath.join "/photos" f, Inode File mtime)) files).

Definition arguments (simulate : bool) (fmt : string) : namespace :=
  {| paths := ["/photos"]; recursive := false; simulate := simulate;
     use_filetime := false; format := fmt;
     extensions := PyStr.join "," DEFAULT_EXTENSIONS; verbose := false |}.

Definition run (e : env) (args : namespace) (fs : filesystem)
    : outcome Z * state :=
  main strptime strftime (json_loads []) fromtimestamp e args (State fs []).

End Sample.

(** ** Facts about strings *)

Module StrFacts.
Import PyStr.

Lemma app_nil_l (s : string) : "" +:+ s = s.
Proof. reflexivity. Qed.

Lemma app_cons (c : ascii) (s t : string) :
  String c s +:+ t = String c (s +:+ t).
Proof. reflexivity. Qed.

Lemma app_nil_r (s : string) : s +:+ "" = s.
Proof. induction s as [|c s IH]; [done | rewrite app_cons; by f_equal]. Qed.

Lemma app_assoc (a b c : string) : (a +:+ b) +:+ c = a +:+ b +:+ c.
Proof. induction a as [|x a IH]; [done | rewrite !app_cons; by f_equal]. Qed.

Lemma length_app (a b : string) :
  String.length (a +:+ b) = String.length a + String.length b.
Proof.
  induction a as [|x a IH]; [done | rewrite app_cons; simpl; by f_equal].
Qed.

Lemma app_cancel_r (a b t : string) : a +:+ t = b +:+ t -> a = b.
Proof.
  revert b. induction a as [|x a IH]; intros [|y b] H;
    rewrite ?app_cons, ?app_nil_l in H.
  - done.
  - apply (f_equal String.length) in H. simpl in H.
    rewrite length_app in H. lia.
  - apply (f_equal String.length) in H. simpl in H.
    rewrite length_app in H. lia.
  - injection H as -> H. f_equal. by apply IH.
Qed.

Lemma chr_eqb_eq (a b : ascii) : chr_eqb a b = true <-> a = b.
Proof. apply Ascii.eqb_eq. Qed.

Lemma chr_eqb_neq (a b : ascii) : chr_eqb a b = false <-> a <> b.
Proof. apply Ascii.eqb_neq. Qed.

Lemma startswith_sep_cons (c : ascii) (s : string) :
  startswith "/" (String c s) = chr_eqb c "/".
Proof.
  simpl. by rewrite andb_true_r.
Qed.

Lemma startswith_sep_app (b s : string) :
  startswith "/" s = false ->
  startswith "/" (b +:+ s) = startswith "/" b.
Proof.
  intros Hs. destruct b as [|c b].
  - by rewrite app_nil_l, Hs.
  - by rewrite app_cons, !startswith_sep_cons.
Qed.

Lemma contains_app (c : ascii) (a b : string) :
  contains c (a +:+ b) = contains c a || contains c b.
Proof.
  induction a as [|x a IH]; [done|].
  rewrite app_cons. simpl. rewrite IH. by rewrite orb_assoc.
Qed.

Lemma split_nonempty (c : ascii) (s : string) : split c s <> [].
Proof.
  destruct s as [|a r]; simpl; [done|].
  destruct (chr_eqb a c); [done|]. by destruct (split c r).
Qed.

End StrFacts.

(** ** The target namer *)

Section Namer.
Import PyStr StrFacts.

(** What [os.path.join(directory, name)] puts before [name], for a
    [name] that begins like [base_name]. *)
Definition join_prefix (directory base_name : string) : string :=
  if startswith "/" base_name then ""
  else if negb (nonempty directory) || endswith_chr OsPath.sep directory
       then directory
       else directory +:+ "/".

Lemma join_base_app (directory base_name s : string) :
  startswith "/" s = false ->
  OsPath.join directory (base_name +:+ s)
  = join_prefix directory base_name +:+ base_name +:+ s.
Proof.
  intros Hs. unfold OsPath.join, join_prefix.
  rewrite (startswith_sep_app _ _ Hs).
  destruct (startswith "/" base_name); [done|].
  destruct (negb (nonempty directory) || endswith_chr OsPath.sep directory);
    [done|]. by rewrite app_assoc.
Qed.

Lemma numbered_eq (directory base_name ext : string) (k : nat) :
  numbered directory base_name ext k
  = join_prefix directory base_name +:+ base_name
    +:+ "_" +:+ pretty k +:+ "." +:+ ext.
Proof. unfold numbered. by rewrite join_base_app. Qed.

#[local] Instance numbered_inj (directory base_name ext : string) :
  Inj (=) (=) (numbered directory base_name ext).
Proof.
  intros j k H. rewrite !numbered_eq in H.
  do 3 apply (inj (String.append _)) in H.
  apply (inj pretty). by apply (app_cancel_r _ _ ("." +:+ ext)).
Qed.

(** A probe that gives up has found every candidate of its range taken. *)
Lemma probe_None (fs : filesystem) (directory base_name ext : string)
    (fuel counter : nat) :
  probe fs directory base_name ext fuel counter = None ->
  forall j, counter <= j < counter + fuel ->
    Os.exists_ fs (numbered directory base_name ext j) = true.
Proof.
  revert counter. induction fuel as [|fuel IH]; intros counter H j Hj.
  - lia.
  - simpl in H.
    destruct (Os.exists_ fs (numbered directory base_name ext counter)) eqn:Hex;
      simpl in H; [|done].
    destruct (decide (j = counter)) as [->|Hne]; [done|].
    apply (IH (S counter) H). lia.
Qed.

(** The loop returns: the candidates are pairwise distinct, so they
    cannot all be among the finitely many paths of the filesystem. *)
Lemma probe_returns (fs : filesystem) (directory base_name ext : string)
    (counter : nat) :
  is_Some (probe fs directory base_name ext (S (size fs)) counter).
Proof.
  destruct (probe fs directory base_name ext (S (size fs)) counter) eqn:Hp;
    [by eexists|exfalso].
  pose proof (probe_None _ _ _ _ _ _ Hp) as Hall.
  set (cands := numbered directory base_name ext <$> seq counter (S (size fs))).
  assert (Hsub : (list_to_set cands : gset string) ⊆ dom fs).
  { intros p Hin. apply elem_of_list_to_set in Hin.
    apply list_elem_of_fmap in Hin as (j & -> & Hj).
    apply elem_of_seq in Hj. apply elem_of_dom.
    specialize (Hall j ltac:(lia)). unfold Os.exists_ in Hall.
    by apply bool_decide_eq_true in Hall. }
  apply subseteq_size in Hsub.
  rewrite size_list_to_set in Hsub.
  - unfold cands in Hsub. rewrite length_fmap, length_seq, size_dom in Hsub. lia.
  - apply NoDup_fmap_2; [apply _ | apply NoDup_seq].
Qed.

(** What a probe that returns has found. *)
Lemma probe_Some (fs : filesystem) (directory base_name ext : string)
    (fuel counter : nat) (p : string) :
  probe fs directory base_name ext fuel counter = Some p ->
  exists k, counter <= k /\ p = numbered directory base_name ext k
    /\ Os.exists_ fs p = false
    /\ forall j, counter <= j < k ->
         Os.exists_ fs (numbered directory base_name ext j) = true.
Proof.
  revert counter. induction fuel as [|fuel IH]; intros counter H; [done|].
  simpl in H.
  destruct (Os.exists_ fs (numbered directory base_name ext counter)) eqn:Hex;
    simpl in H.
  - destruct (IH _ H) as (k & Hk & -> & Hfree & Hbelow).
    exists k. repeat split; [lia | done |].
    intros j Hj. destruct (decide (j = counter)) as [->|]; [done|].
    apply Hbelow. lia.
  - injection H as <-. exists counter. repeat split; [lia | done |].
    intros j Hj. lia.
Qed.

End Namer.

(** What [unique_target_path] computes on a given filesystem. *)
Lemma unique_target_path_on_spec (fs : filesystem)
    (directory base_name ext : string) :
  exists p,
    unique_target_path_on fs directory base_name ext = Some p
    /\ Os.exists_ fs p = false
    /\ (Os.exists_ fs (OsPath.join directory (base_name +:+ "." +:+ ext)) = false ->
        p = OsPath.join directory (base_name +:+ "." +:+ ext))
    /\ (Os.exists_ fs (OsPath.join directory (base_name +:+ "." +:+ ext)) = true ->
        exists k, 1 <= k
          /\ p = numbered directory base_name ext k
          /\ forall j, 1 <= j < k ->
               Os.exists_ fs (numbered directory base_name ext j) = true).
Proof.
  unfold unique_target_path_on.
  destruct (Os.exists_ fs (OsPath.join directory (base_name +:+ "." +:+ ext)))
    eqn:Hex; cbn [negb].
  - destruct (probe_returns fs directory base_name ext 1) as [p Hp].
    rewrite Hp.
    destruct (probe_Some _ _ _ _ _ _ _ Hp) as (k & Hk & -> & Hfree & Hbelow).
    eexists. split; [done|]. split; [done|]. split; [done|].
    intros _. exists k. split; [done|]. split; [done|]. exact Hbelow.
  - eexists. split; [done|]. split; [done|]. split; [done|]. done.
Qed.

Lemma unique_target_path_run (directory base_name ext : string) (s : state) :
  unique_target_path directory base_name ext s
  = (Val (default "" (unique_target_path_on (st_fs s) directory base_name ext)), s).
Proof.
  destruct (unique_target_path_on_spec (st_fs s) directory base_name ext)
    as (p & Hp & _).
  unfold unique_target_path. by rewrite Hp.
Qed.

(** C5: for every directory state, base name and extension the namer
    returns [directory/base.ext] when that path does not exist, and
    otherwise [directory/base_k.ext] for the smallest [k >= 1] whose path
    does not exist; the loop always returns, and the path returned does not
    exist at computation time. *)
Theorem unique_target_path_least (directory base_name ext : string) (s : state) :
  exists p,
    unique_target_path directory base_name ext s = (Val p, s)
    /\ Os.exists_ (st_fs s) p = false
    /\ (Os.exists_ (st_fs s)
          (OsPath.join directory (base_name +:+ "." +:+ ext)) = false ->
        p = OsPath.join directory (base_name +:+ "." +:+ ext))
    /\ (Os.exists_ (st_fs s)
          (OsPath.join directory (base_name +:+ "." +:+ ext)) = true ->
        exists k, 1 <= k
          /\ p = OsPath.join directory
                   (base_name +:+ "_" +:+ pretty k +:+ "." +:+ ext)
          /\ forall j, 1 <= j < k ->
               Os.exists_ (st_fs s)
                 (OsPath.join directory
                    (base_name +:+ "_" +:+ pretty j +:+ "." +:+ ext)) = true).
Proof.
  destruct (unique_target_path_on_spec (st_fs s) directory base_name ext)
    as (p & Hp & Hfree & Hfirst & Hnext).
  exists p. rewrite unique_target_path_run, Hp.
  split; [done|]. split; [done|]. split; [done|]. exact Hnext.
Qed.

(** ** Framing: the resolver only reads *)

Section Framing.

(** A computation that always returns a value without touching the
    filesystem: its result and the events it adds, all of them reads of
    metadata, are determined by the filesystem alone. *)
Definition returns {A} (m : M A) : Prop :=
  forall fs, exists a tr,
    forallb is_read tr = true
    /\ forall tr0, m (State fs tr0) = (Val a, State fs (tr0 ++ tr)).

Lemma returns_ret {A} (a : A) : returns (mret a).
Proof.
  intros fs. exists a, []. split; [done|]. intros tr0.
  unfold mret, M_ret. by rewrite app_nil_r.
Qed.

Lemma returns_emit (ev : event) : is_read ev = true -> returns (emit ev).
Proof.
  intros Hev fs. exists tt, [ev]. split; [|done].
  simpl. by rewrite Hev.
Qed.

Lemma returns_get_fs : returns get_fs.
Proof.
  intros fs. exists fs, []. split; [done|]. intros tr0.
  unfold get_fs. simpl. by rewrite app_nil_r.
Qed.

Lemma returns_bind {A B} (m : M A) (f : A -> M B) :
  returns m -> (forall a, returns (f a)) -> returns (m ≫= f).
Proof.
  intros Hm Hf fs. destruct (Hm fs) as (a & tr & Hr & Ha).
  destruct (Hf a fs) as (b & tr' & Hr' & Hb).
  exists b, (tr ++ tr'). split.
  - by rewrite forallb_app, Hr, Hr'.
  - intros tr0. unfold mbind, M_bind. rewrite Ha, Hb. by rewrite app_assoc.
Qed.

End Framing.

(** ** The date resolver *)

Definition is_ok {A} (r : result A) : bool :=
  match r with Ok _ => true | Raise _ => false end.

Section Resolver.

Variable strptime : string -> string -> result datetime.
Variable json_loads : string -> result json.
Variable fromtimestamp : Z -> result datetime.
Variable E : env.

Import PyStr.

(** A tag the primary reader passes over: absent, or present with a value
    that does not parse. *)
Definition exifread_passes (tags : gmap string string) (tag : string) : bool :=
  match tags !! tag with
  | Some val => negb (is_ok (strptime val exif_pattern))
  | None => true
  end.

Lemma exifread_scan_first (tags : gmap string string)
    (pre : list string) (tag : string) (post : list string)
    (val : string) (dt : datetime) :
  forallb (exifread_passes tags) pre = true ->
  tags !! tag = Some val ->
  strptime val exif_pattern = Ok dt ->
  exifread_scan strptime tags (pre ++ tag :: post) = Some dt.
Proof.
  intros Hpre Htag Hval. induction pre as [|t pre IH]; simpl.
  - by rewrite Htag, Hval.
  - simpl in Hpre. apply andb_true_iff in Hpre as [Ht Hpre].
    unfold exifread_passes in Ht.
    destruct (tags !! t) as [v|]; [|by apply IH].
    destruct (strptime v exif_pattern); [done | by apply IH].
Qed.

(** A key the secondary reader passes over: absent, falsy, or a string
    whose stripped value does not parse. *)
Definition exiftool_passes (info : gmap string json) (key : string) : bool :=
  match info !! key with
  | None => true
  | Some (JStr val) =>
      negb (nonempty val)
      || negb (is_ok (strptime (PyVal.strip_tz val) exif_pattern))
  | Some v => negb (PyVal.truthy v)
  end.




Lemma split_first_cons (c a : ascii) (r : string) :
  split_first c (String a r)
  = if chr_eqb a c then "" else String a (split_first c r).
Proof.
  unfold split_first. simpl. destruct (chr_eqb a c); [done|].
  pose proof (StrFacts.split_nonempty c r). by destruct (split c r).
Qed.




Local Abbreviation parse_exifread := (parse_exif_date_exifread strptime E).
Local Abbreviation parse_exiftool := (parse_exif_date_exiftool strptime json_loads E).
Local Abbreviation resolve := (get_image_datetime strptime json_loads fromtimestamp E).

Lemma returns_parse_exifread (path : string) : returns (parse_exifread path).
Proof.
  unfold parse_exif_date_exifread.
  destruct (env_exifread E) as [process_file|]; [|apply returns_ret].
  apply returns_bind; [by apply returns_emit|]. intros _.
  destruct (process_file path); apply returns_ret.
Qed.

Lemma returns_parse_exiftool (path : string) : returns (parse_exiftool path).
Proof.
  unfold parse_exif_date_exiftool.
  apply returns_bind; [by apply returns_emit|]. intros _.
  destruct (env_exiftool E path); apply returns_ret.
Qed.

(** The resolver never raises and never changes the filesystem. *)
Lemma returns_get_image_datetime (path : string) (use_filetime : bool) :
  returns (resolve path use_filetime).
Proof.
  unfold get_image_datetime.
  apply returns_bind; [apply returns_parse_exifread|]. intros [dt|].
  { apply returns_ret. }
  apply returns_bind; [apply returns_parse_exiftool|]. intros [dt2|].
  { apply returns_ret. }
  destruct use_filetime; [|apply returns_ret].
  apply returns_bind; [by apply returns_emit|]. intros _.
  apply returns_bind; [apply returns_get_fs|]. intros fs.
  destruct (Os.getmtime fs path) as [ts|]; [|apply returns_ret].
  destruct (fromtimestamp ts); apply returns_ret.
Qed.

End Resolver.

Section ResolverClaims.

Variable strptime : string -> string -> result datetime.
Variable json_loads : string -> result json.
Variable fromtimestamp : Z -> result datetime.
Variable E : env.

Import PyStr.

(** C3: when the primary reader yields a tag (original capture time,
    digitized time or generic image time, tried in that order) that parses
    under the fixed pattern, the resolver returns exactly the parsed value,
    and the only collaborator it has consulted is the primary reader:
    neither the external tool nor the modification time is read, whatever
    they would give. *)
Theorem primary_reader_short_circuits (path : string) (use_filetime : bool)
    (s : state) (process_file : string -> result (gmap string string))
    (tags : gmap string string) (pre : list string) (tag : string)
    (post : list string) (val : string) (dt : datetime) :
  env_exifread E = Some process_file ->
  process_file path = Ok tags ->
  exifread_tags = pre ++ tag :: post ->
  forallb (exifread_passes strptime tags) pre = true ->
  tags !! tag = Some val ->
  strptime val exif_pattern = Ok dt ->
  get_image_datetime strptime json_loads fromtimestamp E path use_filetime s
  = (Val (Some dt), State (st_fs s) (st_trace s ++ [EvExifread path])).
Proof.
  intros HE Hfile Htags Hpre Htag Hval.
  unfold get_image_datetime, parse_exif_date_exifread.
  rewrite HE. unfold mbind, M_bind, emit. rewrite Hfile, Htags.
  by rewrite (exifread_scan_first strptime tags pre tag post val dt).
Qed.


End ResolverClaims.

(** ** Facts about paths *)

Module PathFacts.
Import PyStr StrFacts OsPath.

Definition isdigit (c : ascii) : bool :=
  let n := nat_of_ascii c in Nat.leb 48 n && Nat.leb n 57.

Lemma all_chars_contains (P : ascii -> bool) (c : ascii) (s : string) :
  all_chars P s = true -> P c = false -> contains c s = false.
Proof.
  intros Hs Hc. induction s as [|a s IH]; [done|].
  simpl in *. apply andb_true_iff in Hs as [Ha Hs].
  rewrite (IH Hs), orb_false_r. apply chr_eqb_neq. by intros ->; congruence.
Qed.

Lemma pretty_N_char_digit (x : N) : isdigit (pretty_N_char x) = true.
Proof. unfold pretty_N_char. by repeat case_match. Qed.

Lemma pretty_N_go_digits (x : N) (s : string) :
  all_chars isdigit s = true -> all_chars isdigit (pretty_N_go x s) = true.
Proof.
  revert s. induction (N.lt_wf_0 x) as [x _ IH]; intros s Hs.
  assert (x = 0 \/ 0 < x)%N as [->|Hx] by lia.
  - by rewrite pretty_N_go_0.
  - rewrite pretty_N_go_step by done. apply IH.
    + by apply N.div_lt.
    + simpl. by rewrite pretty_N_char_digit, Hs.
Qed.

Lemma pretty_nat_digits (n : nat) : all_chars isdigit (pretty n) = true.
Proof.
  unfold pretty, pretty_nat, pretty, pretty_N.
  destruct (decide (N.of_nat n = 0%N)); [done|].
  by apply pretty_N_go_digits.
Qed.

Lemma pretty_no_sep (n : nat) : contains sep (pretty n) = false.
Proof.
  apply (all_chars_contains isdigit); [apply pretty_nat_digits | done].
Qed.

(** The parts around the last occurrence of a character. *)
Lemma contains_after_last (c : ascii) (s : string) :
  contains c (after_last c s) = false.
Proof.
  induction s as [|a s IH]; [done|]. simpl.
  destruct (contains c s) eqn:Hs; [done|].
  destruct (chr_eqb a c) eqn:Ha; [done|]. simpl. by rewrite Ha, Hs.
Qed.

Lemma contains_after_last_other (c c' : ascii) (s : string) :
  contains c s = false -> contains c (after_last c' s) = false.
Proof.
  induction s as [|a s IH]; [done|]. simpl. intros H.
  apply orb_false_iff in H as [Ha Hs].
  destruct (contains c' s); [by apply IH|].
  destruct (chr_eqb a c'); [done|]. simpl. by rewrite Ha, Hs.
Qed.

Lemma upto_after_last (c : ascii) (s : string) :
  upto_last c s +:+ after_last c s = s.
Proof.
  induction s as [|a s IH]; [done|]. simpl.
  destruct (contains c s).
  - by rewrite app_cons, IH.
  - by destruct (chr_eqb a c).
Qed.

Lemma upto_last_none (c : ascii) (s : string) :
  contains c s = false -> upto_last c s = "".
Proof.
  destruct s as [|a s]; [done|]. simpl. intros H.
  apply orb_false_iff in H as [Ha Hs]. by rewrite Hs, Ha.
Qed.

Lemma upto_last_app_sep (c : ascii) (a n : string) :
  contains c n = false ->
  upto_last c (a +:+ String c n) = a +:+ String c "".
Proof.
  intros Hn. induction a as [|x a IH].
  - rewrite !app_nil_l. simpl. by rewrite Hn, (proj2 (chr_eqb_eq c c)).
  - rewrite !app_cons. simpl. rewrite contains_app. simpl.
    rewrite (proj2 (chr_eqb_eq c c)) by done.
    rewrite orb_true_r. simpl. by rewrite IH.
Qed.

Lemma upto_last_all (c : ascii) (d n : string) :
  all_chars (fun x => chr_eqb x c) d = true ->
  contains c n = false ->
  upto_last c (d +:+ n) = d.
Proof.
  intros Hd Hn. induction d as [|x d IH].
  - rewrite app_nil_l. by apply upto_last_none.
  - simpl in Hd. apply andb_true_iff in Hd as [Hx Hd].
    rewrite app_cons. simpl. rewrite contains_app, Hn, orb_false_r, Hx.
    destruct (contains c d) eqn:Hc; [by rewrite IH|].
    destruct d as [|y d]; [done|]. simpl in Hd, Hc.
    apply andb_true_iff in Hd as [Hy _]. by rewrite Hy in Hc.
Qed.

(** Removing trailing characters. *)
Lemma rstrip_snoc (c : ascii) (d : string) :
  rstrip (fun x => chr_eqb x c) (d +:+ String c "")
  = rstrip (fun x => chr_eqb x c) d.
Proof.
  induction d as [|a d IH].
  - rewrite app_nil_l. simpl. by rewrite (proj2 (chr_eqb_eq c c)).
  - rewrite app_cons. simpl. by rewrite IH.
Qed.

Lemma rstrip_id (c : ascii) (d : string) :
  endswith_chr c d = false -> rstrip (fun x => chr_eqb x c) d = d.
Proof.
  induction d as [|a d IH]; [done|]. intros H.
  destruct d as [|b d].
  - simpl in *. by rewrite H.
  - change (endswith_chr c (String a (String b d)))
      with (endswith_chr c (String b d)) in H.
    specialize (IH H).
    change (rstrip (fun x => chr_eqb x c) (String a (String b d)))
      with (match rstrip (fun x => chr_eqb x c) (String b d) with
            | "" => if chr_eqb a c then "" else String a ""
            | r' => String a r'
            end).
    by rewrite IH.
Qed.

Lemma rstrip_not_endswith (c : ascii) (s : string) :
  endswith_chr c (rstrip (fun x => chr_eqb x c) s) = false.
Proof.
  induction s as [|a s IH]; [done|]. simpl.
  destruct (rstrip (fun x => chr_eqb x c) s) as [|b r] eqn:Hr.
  - destruct (chr_eqb a c) eqn:Ha; [done|]. simpl. exact Ha.
  - exact IH.
Qed.

Lemma all_sep_endswith (c : ascii) (d : string) :
  nonempty d = true ->
  all_chars (fun x => chr_eqb x c) d = true -> endswith_chr c d = true.
Proof.
  induction d as [|a d IH]; [done|]. intros _ H. simpl in H.
  apply andb_true_iff in H as [Ha Hd].
  destruct d as [|b d]; [exact Ha|].
  change (endswith_chr c (String a (String b d)))
    with (endswith_chr c (String b d)). by apply IH.
Qed.

Lemma all_chars_app (P : ascii -> bool) (a b : string) :
  all_chars P (a +:+ b) = all_chars P a && all_chars P b.
Proof.
  induction a as [|x a IH]; [done|].
  rewrite app_cons. simpl. by rewrite IH, andb_assoc.
Qed.

Lemma startswith_contains (c : ascii) (s : string) :
  startswith (String c "") s = true -> contains c s = true.
Proof.
  destruct s as [|a s]; [done|]. simpl. rewrite andb_true_r.
  by intros ->.
Qed.

(** What [dirname] returns: nothing, separators only, or a path that does
    not end in a separator. *)
Definition dir_normal (d : string) : Prop :=
  d = "" \/ (nonempty d = true /\ all_chars is_sep d = true)
  \/ (nonempty d = true /\ endswith_chr sep d = false).

Lemma rstrip_nonempty (P : ascii -> bool) (s : string) :
  all_chars P s = false -> nonempty (rstrip P s) = true.
Proof.
  induction s as [|x s IH]; [done|]. simpl. intros H.
  destruct (rstrip P s); [|done].
  destruct (P x); [|done]. simpl in H. by specialize (IH H).
Qed.

Lemma dirname_normal (p : string) : dir_normal (dirname p).
Proof.
  unfold dirname, dir_normal. generalize (upto_last sep p). intros head.
  destruct (nonempty head && negb (all_chars is_sep head)) eqn:Hc.
  - apply andb_true_iff in Hc as [Hne Hnall]. apply negb_true_iff in Hnall.
    right. right. split; [by apply rstrip_nonempty|apply rstrip_not_endswith].
  - apply andb_false_iff in Hc as [Hne|Hall].
    + left. by destruct head.
    + apply negb_false_iff in Hall.
      destruct head; [by left | right; left; done].
Qed.

(** Joining a name without separators to a directory and taking the
    directory again gives the directory back. *)
Lemma dirname_join (d name : string) :
  dir_normal d -> contains sep name = false ->
  dirname (OsPath.join d name) = d.
Proof.
  intros Hd Hname. unfold OsPath.join.
  destruct (startswith "/" name) eqn:Hs.
  { apply startswith_contains in Hs. unfold sep in Hname. congruence. }
  destruct Hd as [->|[[Hne Hall]|[Hne Hend]]].
  - simpl. rewrite app_nil_l. unfold dirname.
    by rewrite (upto_last_none _ _ Hname).
  - rewrite (all_sep_endswith sep d Hne Hall), orb_true_r.
    unfold dirname. rewrite (upto_last_all sep d name Hall Hname).
    by rewrite Hne, Hall.
  - rewrite Hne, Hend. simpl. unfold dirname.
    change ("/" +:+ name) with (String sep name).
    rewrite (upto_last_app_sep sep d name Hname).
    assert (Hnall : all_chars is_sep d = false).
    { destruct (all_chars is_sep d) eqn:Hall; [|done].
      by rewrite (all_sep_endswith sep d Hne Hall) in Hend. }
    assert (Hne' : nonempty (d +:+ String sep "") = true).
    { destruct d; [done | by rewrite app_cons]. }
    rewrite all_chars_app, Hnall, Hne'. cbn [andb negb].
    unfold is_sep. by rewrite rstrip_snoc, rstrip_id.
Qed.

(** The extension the planner takes from a path. *)
Lemma lstrip_no_dot (x : string) :
  contains extsep x = false -> lstrip is_dot x = x.
Proof.
  destruct x as [|a x]; [done|]. simpl. intros H.
  apply orb_false_iff in H as [Ha _]. unfold is_dot. by rewrite Ha.
Qed.

Lemma ext_of_cases (p : string) :
  ext_of p = "" \/ ext_of p = after_last extsep (after_last sep p).
Proof.
  unfold ext_of, splitext_ext.
  destruct (contains extsep (after_last sep p)
            && any_char (fun c => negb (is_dot c))
                 (upto_last extsep (after_last sep p))); [|by left].
  right.
  change (lstrip is_dot (String extsep (after_last extsep (after_last sep p))))
    with (lstrip is_dot (after_last extsep (after_last sep p))).
  apply lstrip_no_dot, contains_after_last.
Qed.

Lemma ext_of_no_sep (p : string) : contains sep (ext_of p) = false.
Proof.
  destruct (ext_of_cases p) as [->| ->]; [done|].
  apply contains_after_last_other, contains_after_last.
Qed.

Lemma ext_of_no_dot (p : string) : contains extsep (ext_of p) = false.
Proof.
  destruct (ext_of_cases p) as [->| ->]; [done|].
  apply contains_after_last.
Qed.

End PathFacts.

(** ** Facts about [normpath] *)

Module NormFacts.
Import PyStr StrFacts OsPath PathFacts.

(** A last component that [normpath] keeps as it is. *)
Definition plain_comp (l : string) : Prop :=
  contains sep l = false /\ l <> "" /\ l <> "." /\ l <> "..".

Lemma split_no_sep (c : ascii) (l : string) :
  contains c l = false -> split c l = [l].
Proof.
  induction l as [|a l IH]; [done|]. simpl. intros H.
  apply orb_false_iff in H as [Ha Hl]. by rewrite Ha, (IH Hl).
Qed.

Lemma split_snoc (c : ascii) (q l : string) :
  contains c l = false ->
  split c (q +:+ String c l) = split c q ++ [l].
Proof.
  intros Hl. induction q as [|a q IH].
  - rewrite app_nil_l. simpl.
    by rewrite (proj2 (chr_eqb_eq c c)), (split_no_sep c l Hl).
  - rewrite app_cons. simpl. rewrite IH.
    destruct (chr_eqb a c); [done|].
    pose proof (split_nonempty c q). by destruct (split c q).
Qed.

Lemma startswith_seps_app (p q l : string) :
  all_chars is_sep p = true -> contains sep l = false ->
  startswith p (q +:+ l) = startswith p q.
Proof.
  intros Hp Hl. revert q. induction p as [|x p IH]; intros q; [done|].
  simpl in Hp. apply andb_true_iff in Hp as [Hx Hp].
  apply chr_eqb_eq in Hx. subst x.
  destruct q as [|y q].
  - rewrite app_nil_l. destruct l as [|z l]; [done|]. simpl in *.
    apply orb_false_iff in Hl as [Hz _]. by rewrite Hz.
  - rewrite app_cons. simpl. by rewrite IH.
Qed.

Lemma initial_slashes_app (q l : string) :
  contains sep l = false -> initial_slashes (q +:+ l) = initial_slashes q.
Proof.
  intros Hl. unfold initial_slashes.
  by rewrite !startswith_seps_app.
Qed.

Lemma norm_step_plain (n : nat) (stack : list string) (l : string) :
  plain_comp l -> norm_step n stack l = l :: stack.
Proof.
  intros (_ & H0 & H1 & H2). unfold norm_step.
  apply String.eqb_neq in H0, H1, H2. by rewrite H0, H1, H2.
Qed.

Lemma join_snoc (xs : list string) (l : string) :
  PyStr.join "/" (xs ++ [l])
  = match xs with
    | [] => l
    | _ => PyStr.join "/" xs +:+ "/" +:+ l
    end.
Proof.
  induction xs as [|x xs IH]; [done|].
  change ((x :: xs) ++ [l]) with (x :: (xs ++ [l])).
  destruct xs as [|y xs].
  - done.
  - change (PyStr.join "/" (x :: (y :: xs) ++ [l]))
      with (x +:+ "/" +:+ PyStr.join "/" ((y :: xs) ++ [l])).
    rewrite IH.
    change (PyStr.join "/" (x :: y :: xs))
      with (x +:+ "/" +:+ PyStr.join "/" (y :: xs)).
    by rewrite !app_assoc.
Qed.

(** What [normpath] makes of the part before the last component. *)
Definition norm_dir (q : string) : string :=
  let n := initial_slashes (q +:+ "/") in
  let stack := fold_left (norm_step n) (split sep q) [] in
  repeat_sep n
  +:+ match rev stack with
      | [] => ""
      | xs => PyStr.join "/" xs +:+ "/"
      end.

Lemma nonempty_app_r (a b : string) :
  nonempty b = true -> nonempty (a +:+ b) = true.
Proof. destruct a; [done | by rewrite app_cons]. Qed.

Lemma normpath_last (q l : string) :
  plain_comp l -> normpath (q +:+ String sep l) = norm_dir q +:+ l.
Proof.
  intros Hl. pose proof Hl as (Hsep & Hne & _).
  assert (Hl' : nonempty l = true) by (by destruct l).
  unfold normpath, norm_dir.
  rewrite (nonempty_app_r q (String sep l)) by done. cbn [negb].
  assert (Hn : initial_slashes (q +:+ String sep l)
               = initial_slashes (q +:+ "/")).
  { change (String sep l) with ("/" +:+ l).
    by rewrite <- (app_assoc q "/" l), (initial_slashes_app _ l Hsep). }
  rewrite !Hn.
  rewrite (split_snoc sep q l Hsep), fold_left_app. cbn [fold_left].
  rewrite (norm_step_plain _ _ l Hl). cbn [rev]. rewrite join_snoc.
  set (n := initial_slashes (q +:+ "/")).
  set (xs := rev (fold_left (norm_step n) (split sep q) [])).
  assert (Hres : repeat_sep n
                 +:+ match xs with
                     | [] => l
                     | _ :: _ => PyStr.join "/" xs +:+ "/" +:+ l
                     end
               = (repeat_sep n
                  +:+ match xs with
                      | [] => ""
                      | _ :: _ => PyStr.join "/" xs +:+ "/"
                      end) +:+ l).
  { destruct xs; [by rewrite app_assoc | by rewrite !app_assoc]. }
  rewrite Hres, nonempty_app_r by done. subst xs.
  by destruct (rev (fold_left (norm_step n) (split sep q) [])).
Qed.

Lemma endswith_snoc (c : ascii) (q : string) :
  endswith_chr c q = true -> exists q', q = q' +:+ String c "".
Proof.
  induction q as [|a q IH]; [done|]. intros H.
  destruct q as [|b q].
  - simpl in H. apply chr_eqb_eq in H as ->. by exists "".
  - change (endswith_chr c (String a (String b q)))
      with (endswith_chr c (String b q)) in H.
    destruct (IH H) as [q' Hq']. exists (String a q').
    by rewrite app_cons, <- Hq'.
Qed.

(** A normalised path stays normalised when its last component is
    replaced by another plain one. *)
Lemma normpath_sibling (q l1 l2 : string) :
  endswith_chr sep q = true -> plain_comp l1 -> plain_comp l2 ->
  normpath (q +:+ l1) = q +:+ l1 -> normpath (q +:+ l2) = q +:+ l2.
Proof.
  intros Hq H1 H2 Hn. destruct (endswith_snoc _ _ Hq) as [q' ->].
  rewrite app_assoc in *. change (String sep "" +:+ l1) with (String sep l1) in Hn.
  change (String sep "" +:+ l2) with (String sep l2).
  rewrite (normpath_last q' l1 H1) in Hn. rewrite (normpath_last q' l2 H2).
  change (String sep l1) with (String sep "" +:+ l1) in Hn.
  rewrite <- app_assoc in Hn. apply app_cancel_r in Hn. rewrite Hn.
  by rewrite app_assoc.
Qed.

End NormFacts.

(** ** The batch planner *)

(** What the planning loop decides for one candidate. *)
Inductive verdict :=
| NoDate
| Raised (e : exn)
| Same
| Planned (target : string).

(** The effect of a verdict on [mapping] and [failures]. *)
Definition record (src : string) (v : verdict) (acc : plan) : plan :=
  match v with
  | NoDate => (fst acc, snd acc ++ [(src, "no-date")])
  | Raised e => (fst acc, snd acc ++ [(src, exn_str e)])
  | Same => acc
  | Planned target => (fst acc ++ [(src, target)], snd acc)
  end.

Section Planner.

Variable strptime : string -> string -> result datetime.
Variable strftime : datetime -> string -> result string.
Variable json_loads : string -> result json.
Variable fromtimestamp : Z -> result datetime.
Variable E : env.

Import PyStr.

Local Abbreviation resolve :=
  (get_image_datetime strptime json_loads fromtimestamp E).
Local Abbreviation try_body :=
  (plan_try strptime strftime json_loads fromtimestamp E).
Local Abbreviation step :=
  (plan_step strptime strftime json_loads fromtimestamp E).
Local Abbreviation batch :=
  (plan_batch strptime strftime json_loads fromtimestamp E).
Local Abbreviation abspath := (OsPath.abspath (env_cwd E)).

(** The date the resolver finds for a path, as a function of the
    filesystem. *)
Definition resolved (fs : filesystem) (src : string) (use_filetime : bool)
    : option datetime :=
  match fst (resolve src use_filetime (State fs [])) with
  | Val o => o
  | _ => None
  end.

Lemma resolve_run (src : string) (use_filetime : bool) (fs : filesystem) :
  exists tr, forallb is_read tr = true /\ forall tr0,
    resolve src use_filetime (State fs tr0)
    = (Val (resolved fs src use_filetime), State fs (tr0 ++ tr)).
Proof.
  destruct (returns_get_image_datetime strptime json_loads fromtimestamp E
              src use_filetime fs) as (a & tr & Hread & Ha).
  exists tr. split; [done|]. intros tr0. unfold resolved.
  by rewrite (Ha []), (Ha tr0).
Qed.

Lemma resolved_eq (src : string) (use_filetime : bool) (s : state)
    (o : option datetime) :
  fst (resolve src use_filetime s) = Val o ->
  resolved (st_fs s) src use_filetime = o.
Proof.
  destruct (resolve_run src use_filetime (st_fs s)) as (tr & _ & Hr).
  destruct s as [fs tr0]. simpl in *. rewrite (Hr tr0). simpl. congruence.
Qed.

Definition target_of (fs : filesystem) (src base : string) : string :=
  default "" (unique_target_path_on fs (OsPath.dirname src) base (ext_of src)).

Lemma target_of_eq (src base target : string) (s : state) :
  fst (unique_target_path (OsPath.dirname src) base (ext_of src) s) = Val target ->
  target_of (st_fs s) src base = target.
Proof. rewrite unique_target_path_run. simpl. unfold target_of. congruence. Qed.

Definition verdict_of (args : namespace) (fs : filesystem) (src : string)
    : verdict :=
  match resolved fs src (use_filetime args) with
  | None => NoDate
  | Some dt =>
      match strftime dt (format args) with
      | Raise e => Raised e
      | Ok base =>
          let target := target_of fs src base in
          if String.eqb (abspath src) (abspath target) then Same
          else Planned target
      end
  end.

Lemma plan_try_run (args : namespace) (src : string) (fs : filesystem) :
  exists tr, forallb is_read tr = true /\ forall acc tr0,
    try_body args acc src (State fs tr0)
    = (match verdict_of args fs src with
       | Raised e => Exn e
       | v => Val (record src v acc)
       end, State fs (tr0 ++ tr)).
Proof.
  destruct (resolve_run src (use_filetime args) fs) as (tr & Hread & Hr).
  exists tr. split; [done|]. intros [mapping failures] tr0.
  unfold plan_try, verdict_of, mbind, M_bind. rewrite Hr.
  destruct (resolved fs src (use_filetime args)) as [dt|]; [|done].
  unfold lift. destruct (strftime dt (format args)) as [base|e]; [|done].
  rewrite unique_target_path_run. unfold target_of. cbn [st_fs].
  by destruct (String.eqb _ _).
Qed.

Lemma plan_step_run (args : namespace) (src : string) (fs : filesystem) :
  exists tr, forallb is_read tr = true /\ forall acc tr0,
    step args acc src (State fs tr0)
    = (Val (record src (verdict_of args fs src) acc), State fs (tr0 ++ tr)).
Proof.
  destruct (plan_try_run args src fs) as (tr & Hread & Ht).
  exists tr. split; [done|]. intros acc tr0.
  unfold plan_step, try_except. rewrite Ht.
  by destruct (verdict_of args fs src).
Qed.

(** The two lists the planning loop builds, as a function of the
    filesystem. *)
Definition plan_of (args : namespace) (fs : filesystem) (files : list string)
    (acc : plan) : plan :=
  fold_left (fun acc src => record src (verdict_of args fs src) acc) files acc.

Lemma for_each_step_run (args : namespace) (files : list string)
    (fs : filesystem) :
  exists tr, forallb is_read tr = true /\ forall acc tr0,
    for_each (step args) files acc (State fs tr0)
    = (Val (plan_of args fs files acc), State fs (tr0 ++ tr)).
Proof.
  induction files as [|src files IH].
  - exists []. split; [done|]. intros acc tr0. simpl.
    unfold mret, M_ret. by rewrite app_nil_r.
  - destruct (plan_step_run args src fs) as (tr1 & Hr1 & H1).
    destruct IH as (tr2 & Hr2 & H2). exists (tr1 ++ tr2). split.
    { by rewrite forallb_app, Hr1, Hr2. }
    intros acc tr0.
    simpl. unfold mbind, M_bind. rewrite H1, H2. by rewrite app_assoc.
Qed.

Lemma plan_batch_run (args : namespace) (files : list string) (s : state) :
  exists tr,
    forallb is_read tr = true
    /\ batch args files s
       = (Val (plan_of args (st_fs s) files ([], [])),
          State (st_fs s) (st_trace s ++ tr)).
Proof.
  destruct (for_each_step_run args files (st_fs s)) as (tr & Hread & H).
  exists tr. split; [done|]. destruct s as [fs tr0]. apply H.
Qed.

Lemma record_acc (src : string) (v : verdict) (acc : plan) :
  record src v acc
  = (fst acc ++ fst (record src v ([], [])),
     snd acc ++ snd (record src v ([], []))).
Proof. destruct acc, v; simpl; by rewrite ?app_nil_r. Qed.

Lemma plan_of_acc (args : namespace) (fs : filesystem) (files : list string)
    (acc : plan) :
  plan_of args fs files acc
  = (fst acc ++ fst (plan_of args fs files ([], [])),
     snd acc ++ snd (plan_of args fs files ([], []))).
Proof.
  revert acc. induction files as [|src files IH]; intros acc.
  - destruct acc. simpl. by rewrite !app_nil_r.
  - simpl. rewrite IH, (IH (record _ _ ([], []))).
    rewrite (record_acc src _ acc). simpl. by rewrite !app_assoc.
Qed.

Lemma plan_of_app (args : namespace) (fs : filesystem) (l1 l2 : list string) :
  plan_of args fs (l1 ++ l2) ([], [])
  = (fst (plan_of args fs l1 ([], [])) ++ fst (plan_of args fs l2 ([], [])),
     snd (plan_of args fs l1 ([], [])) ++ snd (plan_of args fs l2 ([], []))).
Proof. unfold plan_of at 1. rewrite fold_left_app. apply plan_of_acc. Qed.

Lemma plan_of_cons (args : namespace) (fs : filesystem) (src : string)
    (files : list string) :
  plan_of args fs (src :: files) ([], [])
  = (fst (record src (verdict_of args fs src) ([], []))
       ++ fst (plan_of args fs files ([], [])),
     snd (record src (verdict_of args fs src) ([], []))
       ++ snd (plan_of args fs files ([], []))).
Proof. simpl. apply plan_of_acc. Qed.

(** Where the entries of the two lists come from. *)
Lemma in_mapping (args : namespace) (fs : filesystem) (files : list string)
    (src target : string) :
  (src, target) ∈ fst (plan_of args fs files ([], [])) ->
  src ∈ files /\ verdict_of args fs src = Planned target.
Proof.
  induction files as [|x files IH].
  - simpl. intros H. by apply elem_of_nil in H.
  - rewrite plan_of_cons. simpl. intros H. apply elem_of_app in H as [H|H].
    + destruct (verdict_of args fs x) eqn:Hv; simpl in H;
        try (by apply elem_of_nil in H).
      apply list_elem_of_singleton in H. injection H as -> ->.
      split; [apply list_elem_of_here | done].
    + destruct (IH H) as [Hin Hv]. split; [by apply list_elem_of_further | done].
Qed.

Lemma in_failures (args : namespace) (fs : filesystem) (files : list string)
    (src reason : string) :
  (src, reason) ∈ snd (plan_of args fs files ([], [])) ->
  src ∈ files
  /\ (verdict_of args fs src = NoDate
      \/ exists e, verdict_of args fs src = Raised e).
Proof.
  induction files as [|x files IH].
  - simpl. intros H. by apply elem_of_nil in H.
  - rewrite plan_of_cons. simpl. intros H. apply elem_of_app in H as [H|H].
    + destruct (verdict_of args fs x) eqn:Hv; simpl in H;
        try (by apply elem_of_nil in H);
        apply list_elem_of_singleton in H; injection H as -> ->;
        (split; [apply list_elem_of_here | eauto]).
    + destruct (IH H) as [Hin Hv]. split; [by apply list_elem_of_further | done].
Qed.

End Planner.

(** ** A file that already bears its canonical name *)

Module CanonFacts.
Import PyStr StrFacts OsPath PathFacts NormFacts.

Lemma endswith_app_r (c : ascii) (a b : string) :
  nonempty b = true -> endswith_chr c (a +:+ b) = endswith_chr c b.
Proof.
  intros Hb. induction a as [|x a IH]; [done|].
  rewrite app_cons. pose proof (nonempty_app_r a b Hb) as Hab.
  destruct (a +:+ b) as [|y r] eqn:Hr; [done|].
  change (endswith_chr c (String x (String y r)))
    with (endswith_chr c (String y r)). exact IH.
Qed.

Lemma endswith_contains (c : ascii) (s : string) :
  endswith_chr c s = true -> contains c s = true.
Proof.
  induction s as [|a s IH]; [done|]. intros H. simpl.
  destruct s as [|b s].
  - simpl in H. by rewrite H.
  - change (endswith_chr c (String a (String b s)))
      with (endswith_chr c (String b s)) in H.
    rewrite (IH H). apply orb_true_r.
Qed.

Lemma upto_last_nonempty (c : ascii) (s : string) :
  contains c s = true -> nonempty (upto_last c s) = true.
Proof.
  destruct s as [|a s]; [done|]. simpl.
  destruct (contains c s); [done|].
  rewrite orb_false_r. by intros ->.
Qed.

Lemma upto_last_endswith (c : ascii) (s : string) :
  nonempty (upto_last c s) = true -> endswith_chr c (upto_last c s) = true.
Proof.
  induction s as [|a s IH]; [done|]. simpl.
  destruct (contains c s) eqn:Hc.
  - intros _. pose proof (upto_last_nonempty c s Hc) as Hne.
    specialize (IH Hne). destruct (upto_last c s) as [|y r]; [done|].
    exact IH.
  - by destruct (chr_eqb a c) eqn:Ha.
Qed.

(** A name that ends in a dot and a proper extension is a plain
    component. *)
Lemma plain_comp_ext (t ext : string) :
  contains sep t = false ->
  nonempty ext = true -> contains sep ext = false ->
  contains extsep ext = false ->
  plain_comp (t +:+ "." +:+ ext).
Proof.
  intros Ht Hne Hsep Hdot.
  assert (Hend : endswith_chr extsep (t +:+ "." +:+ ext) = false).
  { rewrite <- app_assoc, endswith_app_r by done.
    destruct (endswith_chr extsep ext) eqn:He; [|done].
    apply endswith_contains in He. congruence. }
  split; [|split; [|split]].
  - rewrite !contains_app, Ht, Hsep. done.
  - intros H. apply (f_equal nonempty) in H.
    rewrite nonempty_app_r in H; [done|]. by apply nonempty_app_r.
  - intros H. rewrite H in Hend. done.
  - intros H. rewrite H in Hend. done.
Qed.

(** Replacing [X.ext] by [X<mid>.ext] in an absolute normalised path
    gives an absolute normalised path. *)
Lemma sibling_normalised (X mid ext : string) :
  isabs (X +:+ "." +:+ ext) = true ->
  normpath (X +:+ "." +:+ ext) = X +:+ "." +:+ ext ->
  nonempty ext = true -> contains sep ext = false ->
  contains extsep ext = false -> contains sep mid = false ->
  isabs (X +:+ mid +:+ "." +:+ ext) = true
  /\ normpath (X +:+ mid +:+ "." +:+ ext) = X +:+ mid +:+ "." +:+ ext.
Proof.
  intros Habs Hnorm Hne Hsep Hdot Hmid.
  pose proof (upto_after_last sep X) as HX.
  pose proof (contains_after_last sep X) as HT.
  pose proof (upto_last_endswith sep X) as HQe.
  revert HX HT HQe. generalize (upto_last sep X) (after_last sep X).
  intros Q T HX HT HQe. subst X.
  assert (H1 : plain_comp (T +:+ "." +:+ ext)) by by apply plain_comp_ext.
  assert (H2 : plain_comp ((T +:+ mid) +:+ "." +:+ ext)).
  { apply plain_comp_ext; try done. by rewrite contains_app, HT, Hmid. }
  assert (HQ : nonempty Q = true).
  { destruct Q; [|done]. rewrite app_nil_l in Habs.
    apply startswith_contains in Habs. destruct H1 as [H1 _].
    unfold sep in H1. congruence. }
  split.
  - unfold isabs in *. destruct Q as [|a Q']; [done|].
    rewrite !app_cons in *. exact Habs.
  - rewrite !app_assoc in Hnorm. rewrite !app_assoc.
    rewrite <- (app_assoc T mid).
    apply (normpath_sibling Q (T +:+ "." +:+ ext)); try done.
    by apply HQe.
Qed.

End CanonFacts.

Section PlannerClaims.

Variable strptime : string -> string -> result datetime.
Variable strftime : datetime -> string -> result string.
Variable json_loads : string -> result json.
Variable fromtimestamp : Z -> result datetime.
Variable E : env.

Import PyStr.

Local Abbreviation resolve :=
  (get_image_datetime strptime json_loads fromtimestamp E).
Local Abbreviation try_body :=
  (plan_try strptime strftime json_loads fromtimestamp E).
Local Abbreviation step :=
  (plan_step strptime strftime json_loads fromtimestamp E).
Local Abbreviation batch :=
  (plan_batch strptime strftime json_loads fromtimestamp E).
Local Abbreviation abspath := (OsPath.abspath (env_cwd E)).
Local Abbreviation verdict_at :=
  (verdict_of strptime strftime json_loads fromtimestamp E).
Local Abbreviation plan_at :=
  (plan_of strptime strftime json_loads fromtimestamp E).

(** C6: a candidate whose resolved target path equals its source path
    (same absolute path) is left out of both the rename plan and the
    failure list, wherever it stands in the batch. *)
Theorem noop_excluded (args : namespace) (files : list string) (src : string)
    (s : state) (dt : datetime) (base target : string) :
  fst (resolve src (use_filetime args) s) = Val (Some dt) ->
  strftime dt (format args) = Ok base ->
  fst (unique_target_path (OsPath.dirname src) base (ext_of src) s) = Val target ->
  abspath src = abspath target ->
  exists mapping failures s',
    batch args files s = (Val (mapping, failures), s')
    /\ (forall t, (src, t) ∉ mapping)
    /\ (forall r, (src, r) ∉ failures).
Proof.
  intros Hdt Hbase Htarget Hsame.
  assert (Hv : verdict_at args (st_fs s) src = Same).
  { unfold verdict_of.
    rewrite (resolved_eq _ _ _ _ _ _ _ _ Hdt), Hbase.
    rewrite (target_of_eq _ _ _ _ Htarget), Hsame.
    by rewrite String.eqb_refl. }
  destruct (plan_batch_run strptime strftime json_loads fromtimestamp E
              args files s) as (tr & _ & Hrun).
  destruct (plan_at args (st_fs s) files ([], [])) as [mapping failures] eqn:Hp.
  exists mapping, failures, (State (st_fs s) (st_trace s ++ tr)).
  split; [exact Hrun|]. split.
  - intros t Hin.
    change mapping with (fst (mapping, failures)) in Hin. rewrite <- Hp in Hin.
    apply in_mapping in Hin as [_ Hin]. congruence.
  - intros r Hin.
    change failures with (snd (mapping, failures)) in Hin. rewrite <- Hp in Hin.
    apply in_failures in Hin as [_ [Hin|[e Hin]]]; congruence.
Qed.

(** C7, as the code has it: the planning loop returns, and every entry of
    the plan it builds has a target that does not exist on the filesystem
    at plan time and that differs from the source as an absolute path;
    the target's directory is the source's directory whenever the
    formatted base name contains no path separator. *)
Theorem plan_entry_invariant (args : namespace) (files : list string)
    (s : state) :
  exists mapping failures s',
    batch args files s = (Val (mapping, failures), s')
    /\ forall src target, (src, target) ∈ mapping ->
         Os.exists_ (st_fs s) target = false
         /\ abspath src <> abspath target
         /\ exists dt base,
              fst (resolve src (use_filetime args) s) = Val (Some dt)
              /\ strftime dt (format args) = Ok base
              /\ fst (unique_target_path (OsPath.dirname src) base (ext_of src) s)
                 = Val target
              /\ (contains OsPath.sep base = false ->
                  OsPath.dirname target = OsPath.dirname src).
Proof.
  destruct (plan_batch_run strptime strftime json_loads fromtimestamp E
              args files s) as (tr & _ & Hrun).
  destruct (plan_at args (st_fs s) files ([], [])) as [mapping failures] eqn:Hp.
  exists mapping, failures, (State (st_fs s) (st_trace s ++ tr)).
  split; [exact Hrun|]. intros src target Hin.
  change mapping with (fst (mapping, failures)) in Hin. rewrite <- Hp in Hin.
  apply in_mapping in Hin as [_ Hv]. unfold verdict_of in Hv.
  destruct (resolved strptime json_loads fromtimestamp E (st_fs s) src
              (use_filetime args)) as [dt|] eqn:Hdt; [|done].
  destruct (strftime dt (format args)) as [base|e] eqn:Hbase; [|done].
  destruct (String.eqb (abspath src) (abspath (target_of (st_fs s) src base)))
    eqn:Hneq; [done|].
  injection Hv as <-. apply String.eqb_neq in Hneq.
  destruct (unique_target_path_on_spec (st_fs s) (OsPath.dirname src) base
              (ext_of src)) as (p & Hp' & Hfree & Hfirst & Hnext).
  assert (Htarget : target_of (st_fs s) src base = p).
  { unfold target_of. by rewrite Hp'. }
  rewrite Htarget in *. split; [exact Hfree|]. split; [exact Hneq|].
  exists dt, base. split.
  { destruct (resolve_run strptime json_loads fromtimestamp E src
                (use_filetime args) (st_fs s)) as (tr' & _ & Hr).
    destruct s as [fs tr0]. cbn [st_fs] in *. by rewrite Hr, Hdt. }
  split; [done|]. split; [by rewrite unique_target_path_run, Hp'|].
  intros Hsep.
  pose proof (PathFacts.ext_of_no_sep src) as Hext.
  destruct (Os.exists_ (st_fs s)
              (OsPath.join (OsPath.dirname src) (base +:+ "." +:+ ext_of src)))
    eqn:Hex.
  - destruct (Hnext eq_refl) as (k & _ & -> & _).
    apply PathFacts.dirname_join; [apply PathFacts.dirname_normal|].
    rewrite !StrFacts.contains_app, Hsep, Hext, PathFacts.pretty_no_sep. done.
  - rewrite (Hfirst eq_refl).
    apply PathFacts.dirname_join; [apply PathFacts.dirname_normal|].
    rewrite !StrFacts.contains_app, Hsep, Hext. done.
Qed.

(** C9: when the processing of one candidate raises, the exception is
    caught and recorded as a failure pairing that candidate with the
    exception's description, and the loop goes on: the candidates before
    and after it contribute to the plan and to the failure list exactly
    what they contribute on their own. *)
Theorem failure_does_not_stop_batch (args : namespace) (l1 : list string)
    (f : string) (l2 : list string) (s : state) (e : exn) :
  fst (try_body args ([], []) f s) = Exn e ->
  exists m1 f1 m2 f2 s',
    batch args (l1 ++ f :: l2) s
    = (Val (m1 ++ m2, f1 ++ (f, exn_str e) :: f2), s')
    /\ fst (batch args l1 s) = Val (m1, f1)
    /\ fst (batch args l2 s) = Val (m2, f2).
Proof.
  intros Hraise.
  assert (Hv : verdict_at args (st_fs s) f = Raised e).
  { destruct (plan_try_run strptime strftime json_loads fromtimestamp E
                args f (st_fs s)) as (tr & _ & Ht).
    destruct s as [fs tr0]. cbn [st_fs] in *. rewrite Ht in Hraise.
    cbn [fst] in Hraise.
    destruct (verdict_at args fs f); congruence. }
  destruct (plan_batch_run strptime strftime json_loads fromtimestamp E
              args (l1 ++ f :: l2) s) as (tr & _ & Hrun).
  destruct (plan_batch_run strptime strftime json_loads fromtimestamp E
              args l1 s) as (tr1 & _ & Hrun1).
  destruct (plan_batch_run strptime strftime json_loads fromtimestamp E
              args l2 s) as (tr2 & _ & Hrun2).
  destruct (plan_at args (st_fs s) l1 ([], [])) as [m1 f1] eqn:Hp1.
  destruct (plan_at args (st_fs s) l2 ([], [])) as [m2 f2] eqn:Hp2.
  exists m1, f1, m2, f2, (State (st_fs s) (st_trace s ++ tr)).
  split; [|split; [by rewrite Hrun1 | by rewrite Hrun2]].
  rewrite Hrun. rewrite plan_of_app, plan_of_cons, Hp1, Hp2, Hv. done.
Qed.

(** C10, as the code has it: a candidate that exists on disk under its
    canonical name (an absolute normalised path equal to
    [directory/base.ext], with a proper extension) is never skipped; the
    planner adds an entry renaming it to [directory/base_k.ext] for the
    smallest [k >= 1] whose path does not exist, which is
    [directory/base_1.ext] only when that path is free. *)
Theorem canonical_name_is_suffixed (args : namespace) (acc : plan)
    (src : string) (s : state) (dt : datetime) (base : string) :
  Os.exists_ (st_fs s) src = true ->
  OsPath.isabs src = true ->
  OsPath.normpath src = src ->
  nonempty (ext_of src) = true ->
  fst (resolve src (use_filetime args) s) = Val (Some dt) ->
  strftime dt (format args) = Ok base ->
  OsPath.join (OsPath.dirname src) (base +:+ "." +:+ ext_of src) = src ->
  exists k, 1 <= k
    /\ fst (step args acc src s)
       = Val (fst acc
                ++ [(src, OsPath.join (OsPath.dirname src)
                            (base +:+ "_" +:+ pretty k +:+ "." +:+ ext_of src))],
              snd acc)
    /\ Os.exists_ (st_fs s)
         (OsPath.join (OsPath.dirname src)
            (base +:+ "_" +:+ pretty k +:+ "." +:+ ext_of src)) = false
    /\ forall j, 1 <= j < k ->
         Os.exists_ (st_fs s)
           (OsPath.join (OsPath.dirname src)
              (base +:+ "_" +:+ pretty j +:+ "." +:+ ext_of src)) = true.
Proof.
  intros Hex Habs Hnorm Hext Hdt Hbase Hname.
  destruct (unique_target_path_on_spec (st_fs s) (OsPath.dirname src) base
              (ext_of src)) as (p & Hp & Hfree & _ & Hnext).
  rewrite Hname in Hnext. destruct (Hnext Hex) as (k & Hk & -> & Hbelow).
  unfold numbered in *.
  exists k. split; [exact Hk|]. split; [|split; [exact Hfree | exact Hbelow]].
  set (target := OsPath.join (OsPath.dirname src)
                   (base +:+ "_" +:+ pretty k +:+ "." +:+ ext_of src)) in *.
  assert (Hsib : OsPath.isabs target = true /\ OsPath.normpath target = target).
  { unfold target. rewrite join_base_app by done.
    rewrite join_base_app in Hname by done.
    rewrite <- Hname in Habs, Hnorm.
    rewrite <- !(StrFacts.app_assoc (join_prefix _ _) base) in Habs, Hnorm.
    rewrite <- (StrFacts.app_assoc (join_prefix _ _) base).
    rewrite <- (StrFacts.app_assoc "_" (pretty k)).
    apply CanonFacts.sibling_normalised; try done.
    - apply PathFacts.ext_of_no_sep.
    - apply PathFacts.ext_of_no_dot.
    - change ("_" +:+ pretty k) with (String "_" (pretty k)). simpl.
      apply PathFacts.pretty_no_sep. }
  destruct Hsib as [Habs' Hnorm'].
  assert (Hne : abspath src <> abspath target).
  { unfold OsPath.abspath. rewrite Habs, Habs', Hnorm, Hnorm'.
    intros Heq. rewrite Heq in Hex. congruence. }
  assert (Hv : verdict_at args (st_fs s) src = Planned target).
  { unfold verdict_of.
    rewrite (resolved_eq _ _ _ _ _ _ _ _ Hdt), Hbase.
    unfold target_of. rewrite Hp. cbn [default].
    destruct (String.eqb _ _) eqn:Heq; [|reflexivity].
    exfalso. apply Hne. apply String.eqb_eq. exact Heq. }
  destruct (plan_step_run strptime strftime json_loads fromtimestamp E
              args src (st_fs s)) as (tr & _ & Hs).
  destruct s as [fs tr0]. cbn [st_fs] in *. by rewrite Hs, Hv.
Qed.

End PlannerClaims.

(** ** The executor and [main] *)

(** A trace without an event that changes the filesystem. *)
Definition quiet (tr : list event) : bool :=
  forallb (fun ev => negb (is_mutation ev)) tr.

Lemma reads_printed (tr : list event) :
  forallb is_read tr = true -> printed tr = [].
Proof.
  induction tr as [|ev tr IH]; [done|]. simpl. intros H.
  apply andb_true_iff in H as [Hev Htr]. unfold printed in *. simpl.
  rewrite (IH Htr). by destruct ev.
Qed.

Lemma reads_quiet (tr : list event) :
  forallb is_read tr = true -> quiet tr = true.
Proof.
  induction tr as [|ev tr IH]; [done|]. simpl. intros H.
  apply andb_true_iff in H as [Hev Htr]. rewrite (IH Htr).
  by destruct ev.
Qed.

Lemma printed_app (a b : list event) : printed (a ++ b) = printed a ++ printed b.
Proof. apply omap_app. Qed.

Lemma quiet_app (a b : list event) : quiet (a ++ b) = quiet a && quiet b.
Proof. apply forallb_app. Qed.

Lemma printed_prints {A} (f : A -> string) (l : list A) :
  printed (map (fun x => EvPrint (f x)) l) = map f l.
Proof. induction l as [|x l IH]; [done|]. simpl. by rewrite <- IH. Qed.

Lemma quiet_prints {A} (f : A -> string) (l : list A) :
  quiet (map (fun x => EvPrint (f x)) l) = true.
Proof. induction l as [|x l IH]; [done|]. exact IH. Qed.

(** The summary loop prints one line per entry and does nothing else. *)
Lemma print_planned_run (mapping : list (string * string)) (s : state) :
  for_each (fun _ entry => print (planned_line entry)) mapping tt s
  = (Val tt,
     State (st_fs s)
       (st_trace s ++ map (fun entry => EvPrint (planned_line entry)) mapping)).
Proof.
  revert s. induction mapping as [|entry mapping IH]; intros [fs tr0].
  - simpl. unfold mret, M_ret. by rewrite app_nil_r.
  - simpl. unfold mbind, M_bind, print, emit. simpl. rewrite IH. simpl.
    by rewrite <- app_assoc.
Qed.

(** The entries of a plan that the collaborators could not rename, taken
    in plan order from filesystem [fs]: an entry is listed, with the
    description of the exception, when creating the target's directory
    raised or, the directory being there, when the move raised.  Each call
    works on the filesystem the calls before it left. *)
Fixpoint not_renamed (E : env) (fs : filesystem)
    (mapping : list (string * string)) : list (string * string) :=
  match mapping with
  | [] => []
  | (src, dst) :: rest =>
      match env_makedirs E fs (OsPath.dirname dst) with
      | (Some e, fs1) => (src, exn_str e) :: not_renamed E fs1 rest
      | (None, fs1) =>
          match env_move E fs1 src dst with
          | (Some e, fs2) => (src, exn_str e) :: not_renamed E fs2 rest
          | (None, fs2) => not_renamed E fs2 rest
          end
      end
  end.

Section Executor.

Variable strptime : string -> string -> result datetime.
Variable strftime : datetime -> string -> result string.
Variable json_loads : string -> result json.
Variable fromtimestamp : Z -> result datetime.
Variable E : env.

Local Abbreviation batch :=
  (plan_batch strptime strftime json_loads fromtimestamp E).
Local Abbreviation run_main :=
  (main strptime strftime json_loads fromtimestamp E).
Local Abbreviation candidates args s :=
  (iter_candidates E (st_fs s) (paths args) (recursive args)
     (extset_of (extensions args))).

(** One iteration of the execution loop returns, possibly with one more
    failure. *)
Lemma exec_step_returns (failures : list (string * string))
    (entry : string * string) (s : state) :
  exists extra s', exec_step E failures entry s = (Val (failures ++ extra), s').
Proof.
  destruct entry as [src dst].
  unfold exec_step, try_except, rename_file, mbind, M_bind, makedirs, move.
  destruct (env_makedirs E (st_fs s) (OsPath.dirname dst)) as [[e|] fs1].
  { eexists [_], _. reflexivity. }
  cbn [st_fs st_trace].
  destruct (env_move E fs1 src dst) as [[e|] fs2].
  { eexists [_], _. reflexivity. }
  exists []. rewrite app_nil_r. eexists. reflexivity.
Qed.

Lemma exec_batch_returns (mapping failures : list (string * string))
    (s : state) :
  exists extra s', exec_batch E mapping failures s = (Val (failures ++ extra), s').
Proof.
  revert failures s. induction mapping as [|entry mapping IH]; intros failures s.
  - exists [], s. unfold exec_batch. simpl. unfold mret, M_ret.
    by rewrite app_nil_r.
  - destruct (exec_step_returns failures entry s) as (x1 & s1 & H1).
    destruct (IH (failures ++ x1) s1) as (x2 & s2 & H2).
    exists (x1 ++ x2), s2. unfold exec_batch in *. simpl.
    unfold mbind, M_bind. rewrite H1, H2. by rewrite app_assoc.
Qed.

(** The failures the execution loop adds are the entries whose directory
    could not be created or whose move raised, in plan order. *)
Lemma exec_batch_not_renamed (mapping failures : list (string * string))
    (s : state) :
  exists s',
    exec_batch E mapping failures s
    = (Val (failures ++ not_renamed E (st_fs s) mapping), s').
Proof.
  revert failures s. induction mapping as [|[src dst] mapping IH];
    intros failures s.
  - exists s. unfold exec_batch. simpl. unfold mret, M_ret.
    by rewrite app_nil_r.
  - unfold exec_batch in *. cbn [for_each not_renamed].
    unfold mbind at 1. unfold M_bind at 1.
    unfold exec_step, try_except, rename_file, mbind, M_bind, makedirs, move.
    destruct (env_makedirs E (st_fs s) (OsPath.dirname dst)) as [[e|] fs1];
      [|cbn [st_fs st_trace];
        destruct (env_move E fs1 src dst) as [[e|] fs2]];
      unfold print, emit, mret, M_ret; cbn [st_fs st_trace];
      match goal with
      | |- exists s', for_each _ _ ?fl ?st = _ =>
          destruct (IH fl st) as [s' Hs']; exists s';
          etransitivity; [exact Hs'|]
      end; cbn [st_fs]; by rewrite <- ?app_assoc.
Qed.

(** The state in which the execution loop starts: the plan has been
    printed. *)
Definition announced (mapping : list (string * string)) (s1 : state) : state :=
  State (st_fs s1)
    ((st_trace s1 ++ [EvPrint "Planned renames:"])
       ++ map (fun entry => EvPrint (planned_line entry)) mapping).

Lemma main_with_plan (args : namespace) (s : state)
    (mapping failures : list (string * string)) (s1 : state) :
  batch args (candidates args s) s = (Val (mapping, failures), s1) ->
  mapping <> [] ->
  run_main args s
  = if simulate args
    then (Val 0%Z,
          State (st_fs s1)
            (st_trace (announced mapping s1)
               ++ [EvPrint "Simulation mode; no files renamed."]))
    else match exec_batch E mapping failures (announced mapping s1) with
         | (Val failures', s3) =>
             (Val (if bool_decide (failures' = []) then 0 else 2)%Z, s3)
         | (Exn e, s3) => (Exn e, s3)
         | (Loop, s3) => (Loop, s3)
         end.
Proof.
  intros Hplan Hne. unfold main, mbind, M_bind, get_fs.
  destruct (bool_decide (candidates args s = [])) eqn:Hfiles.
  { apply bool_decide_eq_true in Hfiles. rewrite Hfiles in Hplan.
    unfold plan_batch in Hplan. simpl in Hplan. unfold mret, M_ret in Hplan.
    injection Hplan as <- _ _. done. }
  rewrite Hplan. rewrite bool_decide_eq_false_2 by done.
  unfold print, emit. rewrite print_planned_run. cbn [st_fs st_trace].
  destruct (simulate args); [done|].
  unfold announced.
  destruct (exec_batch E mapping failures _) as [[failures'| |] s3]; [|done|done].
  by destruct (bool_decide (failures' = [])).
Qed.

(** C1, as the code has it: when at least one rename was planned, a run
    in simulation mode returns 0 whatever failures the planning recorded;
    a run in execution mode returns 0 when the planning recorded no
    failure and every entry was renamed, and 2 when the planning recorded
    a failure or the directory or the move of some entry raised. *)
Theorem exit_code_with_plan (args : namespace) (s : state)
    (mapping failures : list (string * string)) (s1 : state) :
  batch args (candidates args s) s = (Val (mapping, failures), s1) ->
  mapping <> [] ->
  (simulate args = true -> fst (run_main args s) = Val 0%Z)
  /\ (simulate args = false ->
      failures = [] -> not_renamed E (st_fs s1) mapping = [] ->
      fst (run_main args s) = Val 0%Z)
  /\ (simulate args = false ->
      failures <> [] \/ not_renamed E (st_fs s1) mapping <> [] ->
      fst (run_main args s) = Val 2%Z).
Proof.
  intros Hplan Hne. pose proof (main_with_plan args s _ _ _ Hplan Hne) as Hmain.
  destruct (exec_batch_not_renamed mapping failures (announced mapping s1))
    as (s3 & Hexec).
  cbn [announced st_fs] in Hexec.
  split; [|split].
  - intros Hsim. by rewrite Hmain, Hsim.
  - intros Hsim Hfail Hren. rewrite Hmain, Hsim, Hexec, Hfail, Hren. done.
  - intros Hsim Hsome. rewrite Hmain, Hsim, Hexec. cbn [fst].
    rewrite bool_decide_eq_false_2; [done|].
    intros H. apply app_eq_nil in H as [H1 H2]. by destruct Hsome.
Qed.

(** C8, as the code has it: a run in simulation mode returns 0 and changes
    nothing on the filesystem: no directory is created and no file is
    moved, so every file keeps its location and modification time.  What
    it prints is fixed by the plan the planning loop computed: nothing
    when the plan is empty, and otherwise the heading, one line
    [source -> target] per entry of the plan in plan order, and a closing
    line that names the mode. *)
Theorem simulation_mutates_nothing (args : namespace) (s : state) :
  simulate args = true ->
  exists mapping failures reads tr,
    batch args (candidates args s) s
    = (Val (mapping, failures), State (st_fs s) (st_trace s ++ reads))
    /\ run_main args s = (Val 0%Z, State (st_fs s) (st_trace s ++ tr))
    /\ quiet tr = true
    /\ printed tr
       = match mapping with
         | [] => []
         | _ :: _ =>
             "Planned renames:" :: map planned_line mapping
             ++ ["Simulation mode; no files renamed."]
         end.
Proof.
  intros Hsim.
  destruct (plan_batch_run strptime strftime json_loads fromtimestamp E
              args (candidates args s) s) as (tr & Hread & Hrun).
  destruct (plan_of strptime strftime json_loads fromtimestamp E args
              (st_fs s) (candidates args s) ([], []))
    as [mapping failures] eqn:Hp.
  exists mapping, failures, tr.
  destruct (decide (mapping = [])) as [->|Hne].
  - unfold main, mbind, M_bind, get_fs.
    destruct (bool_decide (candidates args s = [])) eqn:Hfiles.
    + exists []. rewrite app_nil_r. destruct s.
      split; [done|]. split; [done|]. split; done.
    + rewrite Hrun. rewrite bool_decide_eq_true_2 by done.
      exists tr. split; [done|]. split; [done|].
      split; [by apply reads_quiet|]. by apply reads_printed.
  - rewrite (main_with_plan args s _ _ _ Hrun Hne), Hsim.
    unfold announced. cbn [st_fs st_trace].
    eexists. split; [done|]. split; [by rewrite <- !app_assoc|]. split.
    + rewrite !quiet_app, (reads_quiet tr Hread), quiet_prints. done.
    + rewrite !printed_app, (reads_printed tr Hread), printed_prints.
      by destruct mapping.
Qed.

End Executor.

(** ** Concrete runs *)

Module Runs.
Import Sample.

Definition stamp : string := "2023:05:01 10:20:30".
Definition taken : datetime := Datetime 2023 5 1 10 20 30.
Definition canonical : string := "2023-05-01_10-20-30.jpg".

(** Files of [/photos] whose original capture time is [stamp]. *)
Definition dated (files : list string) : list (string * list (string * string)) :=
  map (fun f => (OsPath.join "/photos" f, [("EXIF DateTimeOriginal", stamp)])) files.

(** [img1.jpg] carries a capture time, [img2.jpg] carries no metadata. *)
Definition photos : filesystem := directory_of ["img1.jpg"; "img2.jpg"] 1682936430.
Definition shoot : env :=
  environment (dated ["img1.jpg"]) no_tool ["img1.jpg"; "img2.jpg"].

Definition planning (e : env) (args : namespace) (files : list string)
    (fs : filesystem) : outcome plan * state :=
  plan_batch strptime strftime (json_loads []) fromtimestamp e args files
    (State fs []).

(** The scenario of the specification: one rename, one file without a
    date, and the exit code for a run with failures. *)
Example scenario_one_rename_one_failure :
  fst (planning shoot (arguments false default_format)
         ["/photos/img1.jpg"; "/photos/img2.jpg"] photos)
  = Val ([("/photos/img1.jpg", "/photos/2023-05-01_10-20-30.jpg")],
         [("/photos/img2.jpg", "no-date")])
  /\ fst (run shoot (arguments false default_format) photos) = Val 2%Z.
Proof. split; vm_compute; reflexivity. Qed.

(** C1 fails as stated: with a file that could not be resolved, a run in
    simulation mode returns 0, and so does a run in which no rename was
    planned. *)
Lemma exit_code_zero_despite_failures :
  (fst (planning shoot (arguments true default_format)
          ["/photos/img1.jpg"; "/photos/img2.jpg"] photos)
   = Val ([("/photos/img1.jpg", "/photos/2023-05-01_10-20-30.jpg")],
          [("/photos/img2.jpg", "no-date")])
   /\ fst (run shoot (arguments true default_format) photos) = Val 0%Z)
  /\ (fst (planning (environment [] no_tool ["img2.jpg"])
             (arguments false default_format) ["/photos/img2.jpg"]
             (directory_of ["img2.jpg"] 1682936430))
      = Val ([], [("/photos/img2.jpg", "no-date")])
      /\ fst (run (environment [] no_tool ["img2.jpg"])
                (arguments false default_format)
                (directory_of ["img2.jpg"] 1682936430)) = Val 0%Z).
Proof. repeat split; vm_compute; reflexivity. Qed.

(** C1, amended, at a pattern that puts the target below the photograph
    itself: the plan holds one entry and the planning records no failure,
    the directory of the target cannot be created because a file is in the
    way, and the run returns 2. *)
Lemma exit_code_with_plan_witness :
  fst (run (environment (dated ["img1.jpg"]) no_tool ["img1.jpg"])
         (arguments false "img1.jpg/%Y") (directory_of ["img1.jpg"] 0))
  = Val 2%Z.
Proof.
  refine (proj2 (proj2 (exit_code_with_plan strptime strftime (json_loads [])
            fromtimestamp (environment (dated ["img1.jpg"]) no_tool ["img1.jpg"])
            (arguments false "img1.jpg/%Y")
            (State (directory_of ["img1.jpg"] 0) [])
            [("/photos/img1.jpg", "/photos/img1.jpg/2023.jpg")] []
            (State (directory_of ["img1.jpg"] 0)
               [EvExifread "/photos/img1.jpg"]) _ _)) _ _).
  - vm_compute; reflexivity.
  - discriminate.
  - reflexivity.
  - right. vm_compute. discriminate.
Defined.

(** C2 fails on the code: two photographs taken in the same second are
    both planned onto [directory/base.ext], because the namer probes the
    filesystem only and the plan is not yet carried out; the second move
    then replaces the first file, and the run reports success. *)
Theorem same_second_photos_collide :
  let e := environment (dated ["img1.jpg"; "img2.jpg"]) no_tool
             ["img1.jpg"; "img2.jpg"] in
  let r := run e (arguments false default_format) photos in
  fst (planning e (arguments false default_format)
         ["/photos/img1.jpg"; "/photos/img2.jpg"] photos)
  = Val ([("/photos/img1.jpg", "/photos/2023-05-01_10-20-30.jpg");
          ("/photos/img2.jpg", "/photos/2023-05-01_10-20-30.jpg")], [])
  /\ fst r = Val 0%Z
  /\ fst <$> map_to_list (st_fs (snd r))
     = ["/photos/2023-05-01_10-20-30.jpg"; "/photos"].
Proof. repeat split; vm_compute; reflexivity. Qed.

(** C3 at a file whose original capture time does not parse and whose
    digitized time does, while the modification time is available too. *)
Definition zeroed : list (string * list (string * string)) :=
  [("/photos/img1.jpg",
    [("EXIF DateTimeOriginal", "0000:00:00 00:00:00");
     ("EXIF DateTimeDigitized", stamp)])].

Lemma primary_reader_short_circuits_witness :
  get_image_datetime strptime (json_loads []) fromtimestamp
    (environment zeroed no_tool ["img1.jpg"]) "/photos/img1.jpg" true
    (State photos [])
  = (Val (Some taken), State photos [EvExifread "/photos/img1.jpg"]).
Proof.
  apply (primary_reader_short_circuits strptime (json_loads []) fromtimestamp
           (environment zeroed no_tool ["img1.jpg"]) "/photos/img1.jpg" true
           (State photos [])
           (fun p =>
              match List.find (fun '(q, _) => String.eqb q p) zeroed with
              | Some (_, kv) => Ok (list_to_map kv)
              | None => Ok ∅
              end)
           (list_to_map [("EXIF DateTimeOriginal", "0000:00:00 00:00:00");
                         ("EXIF DateTimeDigitized", stamp)])
           ["EXIF DateTimeOriginal"] "EXIF DateTimeDigitized"
           ["Image DateTime"] stamp taken);
    vm_compute; reflexivity.
Defined.

(** C4, amended, at a file without metadata for the primary reader, for
    which the external tool reports a creation date with a timezone
    offset. *)
Definition quoted (s : string) : string :=
  String (ascii_of_nat 34) s +:+ String (ascii_of_nat 34) "".

Definition tool_text : string :=
  "[{" +:+ quoted "SourceFile" +:+ ": " +:+ quoted "/photos/img2.jpg" +:+ ", "
  +:+ quoted "CreateDate" +:+ ": " +:+ quoted (stamp +:+ "+02:00") +:+ "}]".

Definition tool_info : gmap string json :=
  list_to_map [("SourceFile", JStr "/photos/img2.jpg");
               ("CreateDate", JStr (stamp +:+ "+02:00"))].

Definition tool (p : string) : result completed_process :=
  Ok (CompletedProcess 0 (tool_text +:+ String (ascii_of_nat 10) "") "").






(** C6 at a pattern that names a missing directory and steps back out of
    it: the path probed does not exist, and it is the source's own
    absolute path. *)
Lemma noop_excluded_witness :
  exists mapping failures s',
    plan_batch strptime strftime (json_loads []) fromtimestamp
      (environment (dated [canonical]) no_tool [canonical])
      (arguments false "zz/../%Y-%m-%d_%H-%M-%S")
      ["/photos/img0.jpg"; "/photos/2023-05-01_10-20-30.jpg"]
      (State (directory_of [canonical] 0) [])
    = (Val (mapping, failures), s')
    /\ (forall t, ("/photos/2023-05-01_10-20-30.jpg", t) ∉ mapping)
    /\ (forall r, ("/photos/2023-05-01_10-20-30.jpg", r) ∉ failures).
Proof.
  apply (noop_excluded strptime strftime (json_loads []) fromtimestamp
           (environment (dated [canonical]) no_tool [canonical])
           (arguments false "zz/../%Y-%m-%d_%H-%M-%S")
           ["/photos/img0.jpg"; "/photos/2023-05-01_10-20-30.jpg"]
           "/photos/2023-05-01_10-20-30.jpg"
           (State (directory_of [canonical] 0) []) taken
           "zz/../2023-05-01_10-20-30"
           "/photos/zz/../2023-05-01_10-20-30.jpg");
    vm_compute; reflexivity.
Defined.

(** C7 fails as stated: a pattern with a separator plans a move into
    another directory, which the executor then creates. *)
Lemma target_may_leave_directory :
  let r := run (environment (dated ["img1.jpg"]) no_tool ["img1.jpg"])
             (arguments false "%Y/%m-%d_%H-%M-%S")
             (directory_of ["img1.jpg"] 0) in
  fst (planning (environment (dated ["img1.jpg"]) no_tool ["img1.jpg"])
         (arguments false "%Y/%m-%d_%H-%M-%S") ["/photos/img1.jpg"]
         (directory_of ["img1.jpg"] 0))
  = Val ([("/photos/img1.jpg", "/photos/2023/05-01_10-20-30.jpg")], [])
  /\ OsPath.dirname "/photos/2023/05-01_10-20-30.jpg" = "/photos/2023"
  /\ OsPath.dirname "/photos/img1.jpg" = "/photos"
  /\ fst r = Val 0%Z
  /\ fst <$> map_to_list (st_fs (snd r))
     = ["/photos/2023/05-01_10-20-30.jpg"; "/photos/2023"; "/photos"].
Proof. repeat split; vm_compute; reflexivity. Qed.

(** A line that consists of a move preceded by something. *)
Definition prefixed (move line : string) : bool :=
  Nat.ltb (String.length move) (String.length line)
  && String.eqb
       (substring (String.length line - String.length move)
          (String.length move) line) move.

(** C8 fails as stated: in simulation mode the planned move is printed
    bare, as in execution mode, and no line carries a prefix; the prefix
    [SIMULATE:] belongs to [rename_file], which [main] does not call in
    this mode. *)
Lemma simulation_prints_no_prefix :
  let move := "/photos/img1.jpg -> /photos/2023-05-01_10-20-30.jpg" in
  let out := printed (st_trace (snd (run shoot (arguments true default_format)
                                       photos))) in
  out = ["Planned renames:"; move; "Simulation mode; no files renamed."]
  /\ existsb (prefixed move) out = false
  /\ printed (st_trace (snd (rename_file shoot "/photos/img1.jpg"
                               "/photos/2023-05-01_10-20-30.jpg" true
                               (State photos []))))
     = ["SIMULATE: " +:+ move].
Proof. repeat split; vm_compute; reflexivity. Qed.

(** C8, amended, at the scenario of the specification. *)
Lemma simulation_mutates_nothing_witness :
  exists mapping failures reads tr,
    plan_batch strptime strftime (json_loads []) fromtimestamp shoot
      (arguments true default_format)
      (iter_candidates shoot photos ["/photos"] false
         (extset_of (extensions (arguments true default_format))))
      (State photos [])
    = (Val (mapping, failures), State photos ([] ++ reads))
    /\ run shoot (arguments true default_format) photos
       = (Val 0%Z, State photos ([] ++ tr))
    /\ quiet tr = true
    /\ printed tr
       = match mapping with
         | [] => []
         | _ :: _ =>
             "Planned renames:" :: map planned_line mapping
             ++ ["Simulation mode; no files renamed."]
         end.
Proof.
  apply (simulation_mutates_nothing strptime strftime (json_loads [])
           fromtimestamp shoot (arguments true default_format)
           (State photos [])).
  reflexivity.
Defined.

(** C9 at a formatter that raises.  With glibc [datetime.strftime]
    accepts every ASCII pattern, so the run takes the formatter of a
    platform that rejects the unknown directive [%Q]: the candidate with a
    date fails, the candidates around it are still processed. *)
Lemma failure_does_not_stop_batch_witness :
  exists m1 f1 m2 f2 s',
    plan_batch strptime strict_strftime (json_loads []) fromtimestamp shoot
      (arguments false "%Q")
      (["/photos/img2.jpg"] ++ "/photos/img1.jpg" :: ["/photos/img2.jpg"])
      (State photos [])
    = (Val (m1 ++ m2,
            f1 ++ ("/photos/img1.jpg", "Invalid format string") :: f2), s')
    /\ fst (plan_batch strptime strict_strftime (json_loads []) fromtimestamp
              shoot (arguments false "%Q") ["/photos/img2.jpg"]
              (State photos []))
       = Val (m1, f1)
    /\ fst (plan_batch strptime strict_strftime (json_loads []) fromtimestamp
              shoot (arguments false "%Q") ["/photos/img2.jpg"]
              (State photos []))
       = Val (m2, f2).
Proof.
  apply (failure_does_not_stop_batch strptime strict_strftime (json_loads [])
           fromtimestamp shoot (arguments false "%Q")
           ["/photos/img2.jpg"] "/photos/img1.jpg" ["/photos/img2.jpg"]
           (State photos []) (value_error "Invalid format string")).
  vm_compute; reflexivity.
Defined.

(** C10 fails as stated: when [base_1.ext] exists as well, the file that
    bears its canonical name is renamed to [base_2.ext]. *)
Lemma canonical_name_may_get_suffix_two :
  let fs := directory_of [canonical; "2023-05-01_10-20-30_1.jpg"] 0 in
  Os.exists_ fs "/photos/2023-05-01_10-20-30_1.jpg" = true
  /\ fst (planning (environment (dated [canonical]) no_tool [canonical])
            (arguments false default_format)
            ["/photos/2023-05-01_10-20-30.jpg"] fs)
     = Val ([("/photos/2023-05-01_10-20-30.jpg",
              "/photos/2023-05-01_10-20-30_2.jpg")], []).
Proof. split; vm_compute; reflexivity. Qed.

(** C10, amended, at a directory that holds the canonical name only. *)
Lemma canonical_name_is_suffixed_witness :
  exists k, 1 <= k
    /\ fst (plan_step strptime strftime (json_loads []) fromtimestamp
              (environment (dated [canonical]) no_tool [canonical])
              (arguments false default_format) ([], [])
              "/photos/2023-05-01_10-20-30.jpg"
              (State (directory_of [canonical] 0) []))
       = Val ([] ++ [("/photos/2023-05-01_10-20-30.jpg",
                      OsPath.join "/photos"
                        ("2023-05-01_10-20-30" +:+ "_" +:+ pretty k +:+ "."
                         +:+ "jpg"))], [])
    /\ Os.exists_ (directory_of [canonical] 0)
         (OsPath.join "/photos"
            ("2023-05-01_10-20-30" +:+ "_" +:+ pretty k +:+ "." +:+ "jpg"))
       = false
    /\ forall j, 1 <= j < k ->
         Os.exists_ (directory_of [canonical] 0)
           (OsPath.join "/photos"
              ("2023-05-01_10-20-30" +:+ "_" +:+ pretty j +:+ "." +:+ "jpg"))
         = true.
Proof.
  apply (canonical_name_is_suffixed strptime strftime (json_loads [])
           fromtimestamp (environment (dated [canonical]) no_tool [canonical])
           (arguments false default_format) ([], [])
           "/photos/2023-05-01_10-20-30.jpg"
           (State (directory_of [canonical] 0) []) taken
           "2023-05-01_10-20-30");
    vm_compute; reflexivity.
Defined.

End Runs.

(** * Further properties of the program *)

(** ** What the two readers can return *)

Definition is_str (v : json) : bool :=
  match v with JStr _ => true | _ => false end.

Section ReaderFacts.

Variable strptime : string -> string -> result datetime.

Import PyStr.

Lemma exifread_scan_sound (tags : gmap string string) (names : list string)
    (dt : datetime) :
  exifread_scan strptime tags names = Some dt ->
  exists tag val,
    tag ∈ names /\ tags !! tag = Some val
    /\ strptime val exif_pattern = Ok dt.
Proof.
  induction names as [|tag names IH]; [done|]. simpl. intros H.
  destruct (tags !! tag) as [val|] eqn:Htag.
  - destruct (strptime val exif_pattern) as [d|e] eqn:Hval.
    + injection H as ->. exists tag, val.
      split; [apply list_elem_of_here | done].
    + destruct (IH H) as (t & v & Hin & Ht & Hv). exists t, v.
      split; [by apply list_elem_of_further | done].
  - destruct (IH H) as (t & v & Hin & Ht & Hv). exists t, v.
    split; [by apply list_elem_of_further | done].
Qed.

Lemma exiftool_scan_sound (info : json) (keys : list string) (dt : datetime) :
  exiftool_scan strptime info keys = Ok (Some dt) ->
  exists m key val,
    info = JObj m /\ key ∈ keys /\ m !! key = Some (JStr val)
    /\ nonempty val = true
    /\ strptime (PyVal.strip_tz val) exif_pattern = Ok dt.
Proof.
  induction keys as [|key keys IH]; [done|]. simpl. intros H.
  assert (Hrest : exiftool_scan strptime info keys = Ok (Some dt) ->
                  exists m k val,
                    info = JObj m /\ k ∈ key :: keys
                    /\ m !! k = Some (JStr val) /\ nonempty val = true
                    /\ strptime (PyVal.strip_tz val) exif_pattern = Ok dt).
  { intros H'. destruct (IH H') as (m & k & v & Hm & Hin & Hk & Hne & Hv).
    exists m, k, v. split; [done|].
    split; [by apply list_elem_of_further | done]. }
  destruct info as [|b|z|s|l|m]; simpl in H; try done.
  - destruct (is_substring key s); simpl in H; [done | by apply Hrest].
  - destruct (existsb _ l); simpl in H; [done | by apply Hrest].
  - destruct (m !! key) as [v|] eqn:Hkey; simpl in H; [|by apply Hrest].
    destruct (PyVal.truthy v) eqn:Htruthy; [|by apply Hrest].
    destruct v as [|b|z|s|l|m']; simpl in H; try done.
    destruct (strptime (PyVal.strip_tz s) exif_pattern) as [d|e] eqn:Hval;
      [|by apply Hrest].
    injection H as ->. exists m, key, s.
    split; [done|]. split; [apply list_elem_of_here | done].
Qed.

(** A value that is truthy and not a string stops the loop over the keys
    with an exception. *)
Lemma exiftool_scan_aborts (info : gmap string json) (pre : list string)
    (key : string) (post : list string) (v : json) :
  forallb (exiftool_passes strptime info) pre = true ->
  info !! key = Some v ->
  PyVal.truthy v = true -> is_str v = false ->
  is_ok (exiftool_scan strptime (JObj info) (pre ++ key :: post)) = false.
Proof.
  intros Hpre Hkey Htruthy Hstr. induction pre as [|k pre IH]; simpl.
  - rewrite Hkey. simpl. rewrite Htruthy. by destruct v.
  - simpl in Hpre. apply andb_true_iff in Hpre as [Hk Hpre].
    specialize (IH Hpre). unfold exiftool_passes in Hk.
    destruct (info !! k) as [w|] eqn:Hw; simpl; [|done].
    destruct w as [|b|z|sv|l|m]; simpl in *;
      try (apply negb_true_iff in Hk; rewrite Hk; exact IH).
    + exact IH.
    + destruct (nonempty sv); simpl in *; [|exact IH].
      destruct (strptime (PyVal.strip_tz sv) exif_pattern); [done | exact IH].
Qed.

(** What [split("+")[0]], [split("-")[0]] and [strip()] leave of a
    character. *)
Lemma contains_split_first (c : ascii) (s : string) :
  contains c (split_first c s) = false.
Proof.
  induction s as [|a s IH]; [done|]. rewrite split_first_cons.
  destruct (chr_eqb a c) eqn:Ha; [done|]. simpl. by rewrite Ha, IH.
Qed.

Lemma contains_split_first_other (c c' : ascii) (s : string) :
  contains c s = false -> contains c (split_first c' s) = false.
Proof.
  induction s as [|a s IH]; [done|]. simpl. intros H.
  apply orb_false_iff in H as [Ha Hs]. rewrite split_first_cons.
  destruct (chr_eqb a c'); [done|]. simpl. by rewrite Ha, IH.
Qed.

Lemma contains_lstrip (P : ascii -> bool) (c : ascii) (s : string) :
  contains c s = false -> contains c (lstrip P s) = false.
Proof.
  induction s as [|a s IH]; [done|]. simpl. intros H.
  destruct (P a); [|exact H].
  apply orb_false_iff in H as [_ Hs]. by apply IH.
Qed.

Lemma contains_rstrip (P : ascii -> bool) (c : ascii) (s : string) :
  contains c s = false -> contains c (rstrip P s) = false.
Proof.
  induction s as [|a s IH]; [done|]. simpl. intros H.
  apply orb_false_iff in H as [Ha Hs]. specialize (IH Hs).
  destruct (rstrip P s) as [|b r].
  - destruct (P a); [done|]. simpl. by rewrite Ha.
  - simpl in *. by rewrite Ha, IH.
Qed.

End ReaderFacts.

(** X4: the text [parse_exif_date_exiftool] hands to the parser, the value
    cut at its first plus sign, then at its first minus sign, then
    stripped, never holds a plus or a minus sign; a date written with
    dashes is therefore cut before its first dash. *)
Theorem strip_tz_has_no_sign (s : string) :
  PyStr.contains "+" (PyVal.strip_tz s) = false
  /\ PyStr.contains "-" (PyVal.strip_tz s) = false.
Proof.
  unfold PyVal.strip_tz, PyStr.strip. split.
  - apply contains_rstrip, contains_lstrip, contains_split_first_other,
      contains_split_first.
  - apply contains_rstrip, contains_lstrip, contains_split_first.
Qed.

(** ** Which collaborators a computation consults *)

Section Emits.

(** A computation that always returns a value, leaves the filesystem as
    it is and adds only events allowed by [P]. *)
Definition emits {A} (P : event -> Prop) (m : M A) : Prop :=
  forall s, exists a tr,
    m s = (Val a, State (st_fs s) (st_trace s ++ tr)) /\ Forall P tr.

Lemma emits_ret {A} (P : event -> Prop) (a : A) : emits P (mret a).
Proof.
  intros [fs tr0]. exists a, []. split; [|done].
  unfold mret, M_ret. simpl. by rewrite app_nil_r.
Qed.

Lemma emits_emit (P : event -> Prop) (ev : event) : P ev -> emits P (emit ev).
Proof. intros Hev s. exists tt, [ev]. split; [done|]. by constructor. Qed.

Lemma emits_get_fs (P : event -> Prop) : emits P get_fs.
Proof.
  intros [fs tr0]. exists fs, []. split; [|done].
  unfold get_fs. simpl. by rewrite app_nil_r.
Qed.

Lemma emits_bind {A B} (P : event -> Prop) (m : M A) (f : A -> M B) :
  emits P m -> (forall a, emits P (f a)) -> emits P (m ≫= f).
Proof.
  intros Hm Hf s. destruct (Hm s) as (a & tr & Ha & Hr).
  destruct (Hf a (State (st_fs s) (st_trace s ++ tr))) as (b & tr' & Hb & Hr').
  exists b, (tr ++ tr'). split.
  - unfold mbind, M_bind. rewrite Ha, Hb. simpl. by rewrite app_assoc.
  - by apply Forall_app.
Qed.

End Emits.

Section ResolverMore.

Variable strptime : string -> string -> result datetime.
Variable json_loads : string -> result json.
Variable fromtimestamp : Z -> result datetime.
Variable E : env.

Import PyStr.

Local Abbreviation parse_exifread := (parse_exif_date_exifread strptime E).
Local Abbreviation parse_exiftool :=
  (parse_exif_date_exiftool strptime json_loads E).
Local Abbreviation resolve :=
  (get_image_datetime strptime json_loads fromtimestamp E).

(** X1: the primary reader returns a date only when [exifread] was
    imported, reading the file raised nothing, and one of the three tags
    holds a value that parses to that date under the fixed pattern; a
    missing module, an unreadable file and tags that do not parse all give
    [None]. *)
Theorem primary_reader_sound (path : string) (s : state) (dt : datetime) :
  fst (parse_exifread path s) = Val (Some dt) ->
  exists process_file tags tag val,
    env_exifread E = Some process_file
    /\ process_file path = Ok tags
    /\ tag ∈ exifread_tags
    /\ tags !! tag = Some val
    /\ strptime val exif_pattern = Ok dt.
Proof.
  unfold parse_exif_date_exifread.
  destruct (env_exifread E) as [process_file|]; [|done].
  unfold mbind, M_bind, emit.
  destruct (process_file path) as [tags|e] eqn:Hfile; [|done].
  unfold mret, M_ret. cbn [fst]. intros H.
  assert (Hs : exifread_scan strptime tags exifread_tags = Some dt)
    by congruence.
  destruct (exifread_scan_sound strptime tags _ dt Hs)
    as (tag & val & Hin & Ht & Hv).
  by exists process_file, tags, tag, val.
Qed.

(** X2: the secondary reader returns a date only when the tool ran, its
    output decoded to a list whose first element is an object, and one of
    the three keys of that object holds a non-empty string that parses to
    that date once cut at its signs and stripped; every other answer of
    the tool gives [None]. *)
Theorem secondary_reader_sound (path : string) (s : state) (dt : datetime) :
  fst (parse_exiftool path s) = Val (Some dt) ->
  exists proc info rest key val,
    env_exiftool E path = Ok proc
    /\ json_loads (strip (stdout proc)) = Ok (JArr (JObj info :: rest))
    /\ key ∈ exiftool_keys
    /\ info !! key = Some (JStr val)
    /\ nonempty val = true
    /\ strptime (PyVal.strip_tz val) exif_pattern = Ok dt.
Proof.
  unfold parse_exif_date_exiftool, mbind, M_bind, emit.
  destruct (env_exiftool E path) as [proc|e] eqn:Htool; [|done].
  unfold mret, M_ret, exiftool_decode. cbn [fst].
  destruct (nonempty (strip (stdout proc))); [|done]. cbn [negb].
  destruct (json_loads (strip (stdout proc))) as [data|e] eqn:Hjson; [|done].
  destruct data as [|b|z|t|l|m]; try done.
  destruct l as [|info rest]; [done|].
  destruct (exiftool_scan strptime info exiftool_keys) as [r|e] eqn:Hscan;
    [|done].
  intros H. assert (r = Some dt) as -> by congruence.
  destruct (exiftool_scan_sound strptime info _ dt Hscan)
    as (m & key & val & -> & Hin & Hk & Hne & Hv).
  by exists proc, m, rest, key, val.
Qed.

(** X3: a value that is truthy but not a string (a number, a list, an
    object) under a key makes the secondary reader give up: the keys after
    it are not tried, whatever they hold. *)
Theorem secondary_reader_gives_up (path : string) (s : state)
    (proc : completed_process) (info : gmap string json) (rest : list json)
    (pre : list string) (key : string) (post : list string) (v : json) :
  env_exiftool E path = Ok proc ->
  nonempty (strip (stdout proc)) = true ->
  json_loads (strip (stdout proc)) = Ok (JArr (JObj info :: rest)) ->
  exiftool_keys = pre ++ key :: post ->
  forallb (exiftool_passes strptime info) pre = true ->
  info !! key = Some v ->
  PyVal.truthy v = true -> is_str v = false ->
  fst (parse_exiftool path s) = Val None.
Proof.
  intros Htool Hout Hjson Hkeys Hpre Hkey Htruthy Hstr.
  unfold parse_exif_date_exiftool, mbind, M_bind, emit. rewrite Htool.
  unfold mret, M_ret, exiftool_decode. rewrite Hout, Hjson, Hkeys.
  cbn [fst negb].
  pose proof (exiftool_scan_aborts strptime info pre key post v
                Hpre Hkey Htruthy Hstr) as Habort.
  by destruct (exiftool_scan strptime (JObj info) (pre ++ key :: post)).
Qed.

(** The value of the secondary reader does not depend on the events
    recorded before it. *)
Lemma parse_exiftool_value (path : string) (fs : filesystem)
    (tr1 tr2 : list event) :
  fst (parse_exiftool path (State fs tr1)) = fst (parse_exiftool path (State fs tr2)).
Proof.
  destruct (returns_parse_exiftool strptime json_loads E path fs)
    as (a & tr & _ & Ha).
  by rewrite (Ha tr1), (Ha tr2).
Qed.

(** X5: when neither reader yields a date, the resolver returns [None] if
    the fallback is disabled, and otherwise the local date-time of the
    file's modification time, or [None] when the file is missing or the
    conversion fails. *)
Theorem resolver_falls_back (path : string) (use_filetime : bool) (s : state) :
  fst (parse_exifread path s) = Val None ->
  fst (parse_exiftool path s) = Val None ->
  fst (resolve path use_filetime s)
  = Val (if use_filetime then
           match Os.getmtime (st_fs s) path with
           | Ok ts =>
               match fromtimestamp ts with
               | Ok dt3 => Some dt3
               | Raise _ => None
               end
           | Raise _ => None
           end
         else None).
Proof.
  intros H1 H2. unfold get_image_datetime. unfold mbind at 1. unfold M_bind at 1.
  destruct (returns_parse_exifread strptime E path (st_fs s))
    as (a & tr & _ & Ha).
  destruct s as [fs tr0]. cbn [st_fs] in *. rewrite Ha in *.
  simpl in H1. injection H1 as ->.
  unfold mbind at 1. unfold M_bind at 1.
  rewrite (parse_exiftool_value path fs tr0 (tr0 ++ tr)) in H2.
  destruct (parse_exiftool path (State fs (tr0 ++ tr))) as [r s2] eqn:Hr.
  simpl in H2. subst r.
  destruct use_filetime; [|done].
  unfold mbind, M_bind, emit, get_fs. cbn [st_fs].
  destruct (returns_parse_exiftool strptime json_loads E path fs)
    as (a2 & tr2 & _ & Ha2).
  rewrite Ha2 in Hr. injection Hr as _ <-. cbn [st_fs].
  destruct (Os.getmtime fs path) as [ts|e]; [|done].
  by destruct (fromtimestamp ts).
Qed.

(** The events the resolver may add for a path. *)
Definition consults (path : string) (use_filetime : bool) (ev : event) : Prop :=
  ev = EvExifread path \/ ev = EvExiftool path
  \/ (ev = EvGetmtime path /\ use_filetime = true).

Lemma emits_resolve (path : string) (use_filetime : bool) :
  emits (consults path use_filetime) (resolve path use_filetime).
Proof.
  unfold get_image_datetime.
  apply emits_bind.
  { unfold parse_exif_date_exifread.
    destruct (env_exifread E) as [process_file|]; [|apply emits_ret].
    apply emits_bind; [apply emits_emit; by left|]. intros _.
    destruct (process_file path); apply emits_ret. }
  intros [dt|]; [apply emits_ret|].
  apply emits_bind.
  { unfold parse_exif_date_exiftool.
    apply emits_bind; [apply emits_emit; right; by left|]. intros _.
    destruct (env_exiftool E path); apply emits_ret. }
  intros [dt2|]; [apply emits_ret|].
  destruct use_filetime; [|apply emits_ret].
  apply emits_bind; [apply emits_emit; right; by right|]. intros _.
  apply emits_bind; [apply emits_get_fs|]. intros fs.
  destruct (Os.getmtime fs path) as [ts|]; [|apply emits_ret].
  destruct (fromtimestamp ts); apply emits_ret.
Qed.

(** X6: the resolver always returns, never raises and leaves the
    filesystem as it is; the only collaborators it consults are the two
    readers and the modification time, each for the path it was given, and
    the modification time only when the fallback is enabled. *)
Theorem resolver_only_reads (path : string) (use_filetime : bool) (s : state) :
  exists r tr,
    resolve path use_filetime s
    = (Val r, State (st_fs s) (st_trace s ++ tr))
    /\ forall ev, ev ∈ tr ->
         ev = EvExifread path \/ ev = EvExiftool path
         \/ (ev = EvGetmtime path /\ use_filetime = true).
Proof.
  destruct (emits_resolve path use_filetime s) as (r & tr & Hrun & Hall).
  exists r, tr. split; [done|]. intros ev Hin.
  by apply (proj1 (Forall_forall _ _) Hall).
Qed.

End ResolverMore.

(** ** The name the namer returns *)

Module NamerFacts.
Import PyStr StrFacts OsPath PathFacts.

Lemma after_last_none (c : ascii) (n : string) :
  contains c n = false -> after_last c n = n.
Proof.
  destruct n as [|a n]; [done|]. simpl. intros H.
  apply orb_false_iff in H as [Ha Hn]. by rewrite Hn, Ha.
Qed.

Lemma after_last_app_sep (c : ascii) (a n : string) :
  contains c n = false -> after_last c (a +:+ String c n) = n.
Proof.
  intros Hn. induction a as [|x a IH].
  - rewrite app_nil_l. simpl. by rewrite Hn, (proj2 (chr_eqb_eq c c)).
  - rewrite app_cons. simpl. rewrite contains_app. simpl.
    rewrite (proj2 (chr_eqb_eq c c)) by done. by rewrite orb_true_r.
Qed.

Lemma any_char_app (P : ascii -> bool) (a b : string) :
  any_char P (a +:+ b) = any_char P a || any_char P b.
Proof.
  induction a as [|x a IH]; [done|].
  rewrite app_cons. simpl. by rewrite IH, orb_assoc.
Qed.

(** The last component of a path made by [join] from a name without
    separators is that name. *)
Lemma after_last_join (d n : string) :
  contains sep n = false -> after_last sep (OsPath.join d n) = n.
Proof.
  intros Hn. unfold OsPath.join.
  destruct (startswith "/" n) eqn:Hs.
  { apply startswith_contains in Hs. unfold sep in Hn. congruence. }
  destruct (nonempty d) eqn:Hd; simpl.
  - destruct (endswith_chr sep d) eqn:He.
    + destruct (NormFacts.endswith_snoc _ _ He) as [d' ->].
      rewrite app_assoc. by apply after_last_app_sep.
    + change ("/" +:+ n) with (String sep n). by apply after_last_app_sep.
  - destruct d; [|done]. rewrite app_nil_l. by apply after_last_none.
Qed.

(** The extension of [directory/stem.ext]. *)
Lemma ext_of_join (d stem ext : string) :
  contains sep stem = false ->
  any_char (fun c => negb (is_dot c)) stem = true ->
  contains sep ext = false -> contains extsep ext = false ->
  ext_of (OsPath.join d (stem +:+ "." +:+ ext)) = ext.
Proof.
  intros Hstem Hany Hsep Hdot. unfold ext_of, splitext_ext.
  rewrite after_last_join by (by rewrite !contains_app, Hstem, Hsep).
  change ("." +:+ ext) with (String extsep ext).
  rewrite (upto_last_app_sep extsep stem ext Hdot).
  rewrite (after_last_app_sep extsep stem ext Hdot).
  rewrite contains_app, any_char_app, Hany. simpl contains.
  rewrite orb_true_r. cbn [andb orb].
  change (lstrip is_dot (String extsep ext)) with (lstrip is_dot ext).
  by apply lstrip_no_dot.
Qed.

End NamerFacts.

(** X7: for a base name without separator that holds a character other
    than a dot, and a proper extension, the path the namer returns lies in
    the directory it was given (the directory of a source path) and has
    that very extension, whatever suffix the probing added. *)
Theorem target_keeps_directory_and_extension (src base ext : string) (s : state) :
  PyStr.contains OsPath.sep base = false ->
  PyStr.any_char (fun c => negb (OsPath.is_dot c)) base = true ->
  PyStr.contains OsPath.sep ext = false ->
  PyStr.contains OsPath.extsep ext = false ->
  exists p,
    unique_target_path (OsPath.dirname src) base ext s = (Val p, s)
    /\ OsPath.dirname p = OsPath.dirname src
    /\ ext_of p = ext.
Proof.
  intros Hbase Hany Hsep Hdot.
  destruct (unique_target_path_on_spec (st_fs s) (OsPath.dirname src) base ext)
    as (p & Hp & _ & Hfirst & Hnext).
  exists p. rewrite unique_target_path_run, Hp. split; [done|].
  destruct (Os.exists_ (st_fs s)
              (OsPath.join (OsPath.dirname src) (base +:+ "." +:+ ext))).
  - destruct (Hnext eq_refl) as (k & _ & -> & _). unfold numbered. split.
    + apply PathFacts.dirname_join; [apply PathFacts.dirname_normal|].
      rewrite !StrFacts.contains_app, Hbase, Hsep, PathFacts.pretty_no_sep.
      done.
    + rewrite <- (StrFacts.app_assoc "_" (pretty k)),
        <- (StrFacts.app_assoc base).
      apply NamerFacts.ext_of_join; try done.
      * rewrite !StrFacts.contains_app, Hbase, PathFacts.pretty_no_sep. done.
      * by rewrite NamerFacts.any_char_app, Hany.
  - rewrite (Hfirst eq_refl). split.
    + apply PathFacts.dirname_join; [apply PathFacts.dirname_normal|].
      rewrite !StrFacts.contains_app, Hbase, Hsep. done.
    + by apply NamerFacts.ext_of_join.
Qed.

(** ** More about the planning loop *)

Section PlannerMore.

Variable strptime : string -> string -> result datetime.
Variable strftime : datetime -> string -> result string.
Variable json_loads : string -> result json.
Variable fromtimestamp : Z -> result datetime.
Variable E : env.

Local Abbreviation batch :=
  (plan_batch strptime strftime json_loads fromtimestamp E).
Local Abbreviation verdict_at :=
  (verdict_of strptime strftime json_loads fromtimestamp E).
Local Abbreviation plan_at :=
  (plan_of strptime strftime json_loads fromtimestamp E).

Lemma mapping_sublist (args : namespace) (fs : filesystem) (files : list string) :
  (fst <$> fst (plan_at args fs files ([], []))) `sublist_of` files.
Proof.
  induction files as [|x files IH]; [constructor|].
  rewrite plan_of_cons. cbn [fst]. rewrite fmap_app.
  destruct (verdict_at args fs x); simpl;
    first [by apply sublist_cons | by apply sublist_skip].
Qed.

Lemma failures_sublist (args : namespace) (fs : filesystem) (files : list string) :
  (fst <$> snd (plan_at args fs files ([], []))) `sublist_of` files.
Proof.
  induction files as [|x files IH]; [constructor|].
  rewrite plan_of_cons. cbn [snd]. rewrite fmap_app.
  destruct (verdict_at args fs x); simpl;
    first [by apply sublist_cons | by apply sublist_skip].
Qed.

Lemma plan_lengths (args : namespace) (fs : filesystem) (files : list string) :
  length (fst (plan_at args fs files ([], [])))
  + length (snd (plan_at args fs files ([], []))) <= length files.
Proof.
  induction files as [|x files IH]; [done|].
  rewrite plan_of_cons. cbn [fst snd]. rewrite !length_app.
  destruct (verdict_at args fs x); simpl; lia.
Qed.

Lemma mapping_in (args : namespace) (fs : filesystem) (files : list string)
    (src target : string) :
  src ∈ files -> verdict_at args fs src = Planned target ->
  (src, target) ∈ fst (plan_at args fs files ([], [])).
Proof.
  intros Hin Hv. induction files as [|x files IH].
  - by apply elem_of_nil in Hin.
  - rewrite plan_of_cons. cbn [fst]. apply elem_of_app.
    apply elem_of_cons in Hin as [->|Hin].
    + left. rewrite Hv. simpl. apply list_elem_of_here.
    + right. by apply IH.
Qed.

(** X8: the planning loop always returns; it leaves the filesystem as it
    is, prints nothing and only reads metadata.  The sources of the plan
    and the sources of the failure list are each a sub-sequence of the
    candidates, in the candidates' order, no source is both planned and
    failed, and the two lists together are no longer than the candidate
    list. *)
Theorem plan_accounts_for_candidates (args : namespace) (files : list string)
    (s : state) :
  exists mapping failures tr,
    batch args files s
    = (Val (mapping, failures), State (st_fs s) (st_trace s ++ tr))
    /\ forallb is_read tr = true
    /\ (fst <$> mapping) `sublist_of` files
    /\ (fst <$> failures) `sublist_of` files
    /\ length mapping + length failures <= length files
    /\ forall src target reason,
         (src, target) ∈ mapping -> (src, reason) ∉ failures.
Proof.
  destruct (plan_batch_run strptime strftime json_loads fromtimestamp E
              args files s) as (tr & Hread & Hrun).
  pose proof (mapping_sublist args (st_fs s) files) as Hm.
  pose proof (failures_sublist args (st_fs s) files) as Hf.
  pose proof (plan_lengths args (st_fs s) files) as Hl.
  pose proof (in_mapping strptime strftime json_loads fromtimestamp E args
                (st_fs s) files) as Hin1.
  pose proof (in_failures strptime strftime json_loads fromtimestamp E args
                (st_fs s) files) as Hin2.
  destruct (plan_at args (st_fs s) files ([], [])) as [mapping failures].
  exists mapping, failures, tr.
  split; [exact Hrun|]. split; [done|]. split; [exact Hm|].
  split; [exact Hf|]. split; [exact Hl|].
  intros src target reason H1 H2.
  destruct (Hin1 _ _ H1) as [_ Hv]. destruct (Hin2 _ _ H2) as [_ [Hn|[e He]]];
    congruence.
Qed.

(** X9: what the planning loop plans for a candidate does not depend on
    the rest of the batch: a pair is in the plan of a batch exactly when
    its source is a candidate of the batch and the pair is the plan of
    that candidate taken alone.  In particular targets already planned for
    other candidates are not taken into account. *)
Theorem plan_entry_is_independent (args : namespace) (files : list string)
    (s : state) :
  exists mapping failures s',
    batch args files s = (Val (mapping, failures), s')
    /\ forall src target,
         (src, target) ∈ mapping
         <-> (src ∈ files
              /\ fst (batch args [src] s) = Val ([(src, target)], [])).
Proof.
  destruct (plan_batch_run strptime strftime json_loads fromtimestamp E
              args files s) as (tr & _ & Hrun).
  pose proof (in_mapping strptime strftime json_loads fromtimestamp E args
                (st_fs s) files) as Hin.
  pose proof (mapping_in args (st_fs s) files) as Hout.
  destruct (plan_at args (st_fs s) files ([], [])) as [mapping failures].
  exists mapping, failures, (State (st_fs s) (st_trace s ++ tr)).
  split; [exact Hrun|]. intros src target.
  destruct (plan_batch_run strptime strftime json_loads fromtimestamp E
              args [src] s) as (tr1 & _ & Hrun1).
  rewrite Hrun1. cbn [fst plan_of fold_left]. split.
  - intros H. destruct (Hin _ _ H) as [Hfiles Hv]. split; [done|].
    by rewrite Hv.
  - intros [Hfiles H]. apply Hout; [done|].
    destruct (verdict_at args (st_fs s) src); simpl in H; congruence.
Qed.

Lemma failures_iff (args : namespace) (fs : filesystem) (files : list string)
    (src reason : string) :
  (src, reason) ∈ snd (plan_at args fs files ([], []))
  <-> (src ∈ files
       /\ ((verdict_at args fs src = NoDate /\ reason = "no-date")
           \/ exists e, verdict_at args fs src = Raised e
                        /\ reason = exn_str e)).
Proof.
  induction files as [|x files IH].
  - simpl. split; [intros H; by apply elem_of_nil in H|].
    intros [H _]. by apply elem_of_nil in H.
  - rewrite plan_of_cons. cbn [snd]. rewrite elem_of_app, IH, elem_of_cons.
    split.
    + intros [H|[Hin Hv]]; [|by auto].
      destruct (verdict_at args fs x) eqn:Hx; simpl in H;
        try (by apply elem_of_nil in H);
        apply list_elem_of_singleton in H; injection H as -> ->;
        (split; [by left|]); rewrite Hx; eauto.
    + intros [[->|Hin] Hv]; [|by auto].
      left. destruct Hv as [[-> ->]|[e [-> ->]]]; apply list_elem_of_here.
Qed.

Lemma verdict_no_date (args : namespace) (src : string) (s : state) :
  verdict_at args (st_fs s) src = NoDate
  <-> fst (get_image_datetime strptime json_loads fromtimestamp E src
             (use_filetime args) s) = Val None.
Proof.
  destruct (resolve_run strptime json_loads fromtimestamp E src
              (use_filetime args) (st_fs s)) as (tr & _ & Hr).
  destruct s as [fs tr0]. cbn [st_fs] in *. rewrite Hr. cbn [fst].
  unfold verdict_of.
  destruct (resolved strptime json_loads fromtimestamp E fs src
              (use_filetime args)) as [dt|]; [|done].
  split; [|done].
  destruct (strftime dt (format args)); [|done].
  by destruct (String.eqb _ _).
Qed.

Lemma verdict_raised (args : namespace) (src : string) (s : state) (e : exn) :
  verdict_at args (st_fs s) src = Raised e
  <-> fst (plan_try strptime strftime json_loads fromtimestamp E args
             ([], []) src s) = Exn e.
Proof.
  destruct (plan_try_run strptime strftime json_loads fromtimestamp E
              args src (st_fs s)) as (tr & _ & Ht).
  destruct s as [fs tr0]. cbn [st_fs] in *. rewrite Ht. cbn [fst].
  destruct (verdict_at args fs src); split; congruence.
Qed.

(** X16: the failure list of the planning loop holds exactly the
    candidates for which no date was found, with the reason [no-date], and
    the candidates whose processing raised, with the description of the
    exception. *)
Theorem failures_are_explained (args : namespace) (files : list string)
    (s : state) :
  exists mapping failures s',
    batch args files s = (Val (mapping, failures), s')
    /\ forall src reason,
         (src, reason) ∈ failures
         <-> (src ∈ files
              /\ ((fst (get_image_datetime strptime json_loads fromtimestamp
                          E src (use_filetime args) s) = Val None
                   /\ reason = "no-date")
                  \/ exists e,
                       fst (plan_try strptime strftime json_loads
                              fromtimestamp E args ([], []) src s) = Exn e
                       /\ reason = exn_str e)).
Proof.
  destruct (plan_batch_run strptime strftime json_loads fromtimestamp E
              args files s) as (tr & _ & Hrun).
  pose proof (failures_iff args (st_fs s) files) as Hiff.
  destruct (plan_at args (st_fs s) files ([], [])) as [mapping failures].
  exists mapping, failures, (State (st_fs s) (st_trace s ++ tr)).
  split; [exact Hrun|]. intros src reason. cbn [snd] in Hiff.
  rewrite Hiff, verdict_no_date.
  split; intros [Hin [H|[e [He Hr]]]]; (split; [done|]); auto;
    right; exists e; (split; [|done]); by apply verdict_raised.
Qed.

End PlannerMore.

(** ** More about the executor and [main] *)

(** The directories the executor asked to create, in order. *)
Definition attempts (tr : list event) : list string :=
  omap (fun ev => match ev with EvMakedirs d => Some d | _ => None end) tr.

Definition renamed_line (entry : string * string) : string :=
  "RENAMED: " +:+ planned_line entry.

Lemma attempts_app (a b : list event) : attempts (a ++ b) = attempts a ++ attempts b.
Proof. apply omap_app. Qed.

(** An event that changes the filesystem stands after every quiet
    prefix. *)
Lemma quiet_prefix (a b before after : list event) (ev : event) :
  quiet a = true -> a ++ b = before ++ ev :: after -> is_mutation ev = true ->
  exists rest, before = a ++ rest.
Proof.
  revert before. induction a as [|x a IH]; intros before Ha Heq Hev.
  - by exists before.
  - simpl in Ha. apply andb_true_iff in Ha as [Hx Ha].
    destruct before as [|y before]; simpl in Heq.
    + injection Heq as -> _. by rewrite Hev in Hx.
    + injection Heq as -> Heq. destruct (IH before Ha Heq Hev) as [rest ->].
      by exists rest.
Qed.

Lemma quiet_no_mutation (tr before after : list event) (ev : event) :
  quiet tr = true -> tr = before ++ ev :: after -> is_mutation ev = false.
Proof.
  intros Hq ->. rewrite quiet_app in Hq. apply andb_true_iff in Hq as [_ Hq].
  simpl in Hq. apply andb_true_iff in Hq as [Hq _].
  by apply negb_true_iff in Hq.
Qed.

Section ExecutorMore.

Variable strptime : string -> string -> result datetime.
Variable strftime : datetime -> string -> result string.
Variable json_loads : string -> result json.
Variable fromtimestamp : Z -> result datetime.
Variable E : env.

Local Abbreviation batch :=
  (plan_batch strptime strftime json_loads fromtimestamp E).
Local Abbreviation run_main :=
  (main strptime strftime json_loads fromtimestamp E).
Local Abbreviation candidates args fs :=
  (iter_candidates E fs (paths args) (recursive args)
     (extset_of (extensions args))).

(** What one iteration of the execution loop does: the directory is asked
    for first, the move follows only if that raised nothing, and the line
    [RENAMED] only if the move raised nothing either. *)
Lemma exec_step_shape (failures : list (string * string))
    (entry : string * string) (s : state) :
  exists extra fs' tr,
    exec_step E failures entry s
    = (Val (failures ++ extra), State fs' (st_trace s ++ tr))
    /\ attempts tr = [OsPath.dirname (snd entry)]
    /\ ((printed tr = [] /\ exists e, extra = [(fst entry, exn_str e)])
        \/ (printed tr = [renamed_line entry] /\ extra = [])).
Proof.
  destruct entry as [src dst].
  unfold exec_step, try_except, rename_file, mbind, M_bind, makedirs, move.
  destruct (env_makedirs E (st_fs s) (OsPath.dirname dst)) as [[e|] fs1].
  { eexists [_], fs1, [_]. split; [reflexivity|]. split; [done|].
    left. split; [done|]. by exists e. }
  cbn [st_fs st_trace].
  destruct (env_move E fs1 src dst) as [[e|] fs2].
  { eexists [_], fs2, [_; _]. split; [by rewrite <- app_assoc|].
    split; [done|]. left. split; [done|]. by exists e. }
  exists [], fs2, [EvMakedirs (OsPath.dirname dst); EvMove src dst;
                   EvPrint (renamed_line (src, dst))].
  split; [|split; [done | by right]].
  rewrite app_nil_r. unfold print, emit, mret, M_ret. cbn [st_fs st_trace].
  by rewrite <- !app_assoc.
Qed.

Lemma exec_batch_shape (mapping failures : list (string * string)) (s : state) :
  exists extra fs' tr,
    exec_batch E mapping failures s
    = (Val (failures ++ extra), State fs' (st_trace s ++ tr))
    /\ attempts tr = (fun entry => OsPath.dirname (snd entry)) <$> mapping
    /\ length (printed tr) + length extra = length mapping
    /\ printed tr `sublist_of` (renamed_line <$> mapping)
    /\ (fst <$> extra) `sublist_of` (fst <$> mapping).
Proof.
  revert failures s. induction mapping as [|entry mapping IH]; intros failures s.
  - exists [], (st_fs s), []. unfold exec_batch. simpl.
    unfold mret, M_ret. rewrite !app_nil_r. destruct s.
    repeat split; constructor.
  - destruct (exec_step_shape failures entry s)
      as (x1 & fs1 & tr1 & H1 & Ha1 & Hs1).
    destruct (IH (failures ++ x1) (State fs1 (st_trace s ++ tr1)))
      as (x2 & fs2 & tr2 & H2 & Ha2 & Hl2 & Hp2 & Hf2).
    exists (x1 ++ x2), fs2, (tr1 ++ tr2). split.
    { unfold exec_batch in *. simpl. unfold mbind, M_bind.
      rewrite H1, H2. cbn [st_trace]. by rewrite !app_assoc. }
    rewrite attempts_app, printed_app, !length_app, !fmap_app, Ha1, Ha2.
    split; [done|].
    destruct Hs1 as [[Hp1 [e ->]]|[Hp1 ->]]; rewrite Hp1; simpl.
    + split; [lia|]. split; [by apply sublist_cons | by apply sublist_skip].
    + split; [lia|]. split; [by apply sublist_skip | by apply sublist_cons].
Qed.

(** X10: the execution loop attempts every entry of the plan, in plan
    order, whether or not earlier entries failed: it asks for the target's
    directory once per entry.  Each entry ends either in a line [RENAMED]
    or in one more failure recorded under its source; the loop itself
    never raises. *)
Theorem executor_attempts_every_entry (mapping failures : list (string * string))
    (s : state) :
  exists extra fs' tr,
    exec_batch E mapping failures s
    = (Val (failures ++ extra), State fs' (st_trace s ++ tr))
    /\ attempts tr = (fun entry => OsPath.dirname (snd entry)) <$> mapping
    /\ length (printed tr) + length extra = length mapping
    /\ printed tr `sublist_of` (renamed_line <$> mapping)
    /\ (fst <$> extra) `sublist_of` (fst <$> mapping).
Proof. apply exec_batch_shape. Qed.

(** What a run of [main] does, by cases. *)
Lemma main_cases (args : namespace) (fs : filesystem) :
  exists reads mapping failures,
    forallb is_read reads = true
    /\ forall tr0,
         batch args (candidates args fs) (State fs tr0)
         = (Val (mapping, failures), State fs (tr0 ++ reads))
         /\ (mapping = [] ->
             run_main args (State fs tr0) = (Val 0%Z, State fs tr0)
             \/ run_main args (State fs tr0) = (Val 0%Z, State fs (tr0 ++ reads))).
Proof.
  destruct (for_each_step_run strptime strftime json_loads fromtimestamp E
              args (candidates args fs) fs) as (tr & Hread & Hrun).
  destruct (plan_of strptime strftime json_loads fromtimestamp E args fs
              (candidates args fs) ([], [])) as [mapping failures] eqn:Hp.
  exists tr, mapping, failures. split; [done|]. intros tr0.
  assert (Hbatch : batch args (candidates args fs) (State fs tr0)
                   = (Val (mapping, failures), State fs (tr0 ++ tr))).
  { unfold plan_batch. by rewrite Hrun, Hp. }
  split; [exact Hbatch|]. intros ->.
  unfold main, mbind, M_bind, get_fs. cbn [st_fs].
  destruct (bool_decide (candidates args fs = [])); [by left|].
  right. by rewrite Hbatch.
Qed.

(** X11: [main] always returns, with exit code 0 or 2: no exception of the
    planning or of the execution leaves it, and the probing loop of the
    namer always ends. *)
Theorem main_returns_zero_or_two (args : namespace) (s : state) :
  exists code s',
    run_main args s = (Val code, s') /\ (code = 0%Z \/ code = 2%Z).
Proof.
  destruct s as [fs tr0].
  destruct (main_cases args fs) as (reads & mapping & failures & _ & H).
  destruct (H tr0) as [Hbatch Hempty].
  destruct (decide (mapping = [])) as [Hm|Hm].
  - destruct (Hempty Hm) as [-> | ->]; eexists _, _; split; eauto.
  - rewrite (main_with_plan strptime strftime json_loads fromtimestamp E
               args (State fs tr0) _ _ _ Hbatch Hm).
    destruct (simulate args); [eexists _, _; split; eauto|].
    destruct (exec_batch_shape mapping failures
                (announced mapping (State fs (tr0 ++ reads))))
      as (extra & fs' & tr & -> & _).
    eexists _, _. split; [reflexivity|].
    destruct (bool_decide (failures ++ extra = [])); auto.
Qed.

(** X12: nothing is changed before the whole plan has been printed: in
    every run, an event that creates a directory or moves a file occurs
    only in execution mode, only when the plan the planning loop computed
    is not empty, and only after the line [Planned renames:] and the line
    of every entry of that plan, in plan order, have been printed. *)
Theorem summary_precedes_mutations (args : namespace) (s : state) :
  exists mapping failures s1 code s' tr,
    batch args (candidates args (st_fs s)) s = (Val (mapping, failures), s1)
    /\ run_main args s = (Val code, s')
    /\ st_trace s' = st_trace s ++ tr
    /\ forall before ev after,
         tr = before ++ ev :: after -> is_mutation ev = true ->
         simulate args = false
         /\ mapping <> []
         /\ exists more,
              printed before
              = "Planned renames:" :: (planned_line <$> mapping) ++ more.
Proof.
  destruct s as [fs tr0]. cbn [st_fs].
  destruct (main_cases args fs) as (reads & mapping & failures & Hread & H).
  destruct (H tr0) as [Hbatch Hempty].
  exists mapping, failures, (State fs (tr0 ++ reads)).
  destruct (decide (mapping = [])) as [Hm|Hm].
  - destruct (Hempty Hm) as [-> | ->].
    + exists 0%Z, (State fs tr0), []. split; [done|]. split; [done|].
      split; [by rewrite app_nil_r|]. intros before ev after Heq.
      by destruct before.
    + exists 0%Z, (State fs (tr0 ++ reads)), reads. split; [done|].
      split; [done|]. split; [done|]. intros before ev after Heq Hev.
      rewrite (quiet_no_mutation reads before after ev) in Hev; [done| |done].
      by apply reads_quiet.
  - rewrite (main_with_plan strptime strftime json_loads fromtimestamp E
               args (State fs tr0) _ _ _ Hbatch Hm).
    set (summary := (reads ++ [EvPrint "Planned renames:"])
                    ++ map (fun entry => EvPrint (planned_line entry)) mapping).
    assert (Hq : quiet summary = true).
    { unfold summary. rewrite !quiet_app, (reads_quiet reads Hread), quiet_prints.
      done. }
    assert (Hp : printed summary = "Planned renames:" :: (planned_line <$> mapping)).
    { unfold summary.
      rewrite !printed_app, (reads_printed reads Hread), printed_prints. done. }
    destruct (simulate args) eqn:Hsim.
    + eexists _, _, (summary ++ [EvPrint "Simulation mode; no files renamed."]).
      split; [done|]. split; [reflexivity|]. split.
      { unfold announced, summary. cbn [st_fs st_trace].
        by rewrite <- !app_assoc. }
      intros before ev after Heq Hev.
      rewrite (quiet_no_mutation
                 (summary ++ [EvPrint "Simulation mode; no files renamed."])
                 before after ev) in Hev; [done| |done].
      by rewrite quiet_app, Hq.
    + destruct (exec_batch_shape mapping failures
                  (announced mapping (State fs (tr0 ++ reads))))
        as (extra & fs' & tr & -> & _).
      eexists _, _, (summary ++ tr). split; [done|]. split; [reflexivity|].
      split.
      { unfold announced, summary. cbn [st_fs st_trace].
        by rewrite <- !app_assoc. }
      intros before ev after Heq Hev. split; [done|]. split; [done|].
      destruct (quiet_prefix summary tr before after ev Hq Heq Hev) as [rest ->].
      exists (printed rest). by rewrite printed_app, Hp.
Qed.

(** X13: a run in simulation mode can be repeated: run again on the state
    it left, [main] adds the same events, so it prints the same plan, and
    again returns 0 with the filesystem as it was. *)
Theorem simulation_is_repeatable (args : namespace) (s : state) :
  simulate args = true ->
  exists tr,
    run_main args s = (Val 0%Z, State (st_fs s) (st_trace s ++ tr))
    /\ run_main args (State (st_fs s) (st_trace s ++ tr))
       = (Val 0%Z, State (st_fs s) ((st_trace s ++ tr) ++ tr)).
Proof.
  intros Hsim. destruct s as [fs tr0]. cbn [st_fs st_trace].
  destruct (main_cases args fs) as (reads & mapping & failures & Hread & H).
  assert (Hall : exists tr, forall tr1,
             run_main args (State fs tr1) = (Val 0%Z, State fs (tr1 ++ tr))).
  { destruct (decide (mapping = [])) as [Hm|Hm].
    - destruct (bool_decide (candidates args fs = [])) eqn:Hc.
      + exists []. intros tr1. rewrite app_nil_r.
        unfold main, mbind, M_bind, get_fs. cbn [st_fs]. by rewrite Hc.
      + exists reads. intros tr1. destruct (H tr1) as [Hbatch _].
        unfold main, mbind, M_bind, get_fs. cbn [st_fs].
        rewrite Hc, Hbatch, Hm. done.
    - eexists. intros tr1. destruct (H tr1) as [Hbatch _].
      rewrite (main_with_plan strptime strftime json_loads fromtimestamp E
                 args (State fs tr1) _ _ _ Hbatch Hm), Hsim.
      unfold announced. cbn [st_fs st_trace]. by rewrite <- !app_assoc. }
  destruct Hall as [tr Htr]. exists tr. by rewrite !Htr.
Qed.

End ExecutorMore.

(** ** The candidate scanner *)

Module ScanFacts.
Import PyStr StrFacts OsPath PathFacts NormFacts.

Lemma nonempty_lower (s : string) : nonempty (lower s) = nonempty s.
Proof. by destruct s. Qed.

(** Empty entries of the extension list are dropped. *)
Lemma extset_no_empty (extensions : string) : "" ∉ extset_of extensions.
Proof.
  unfold extset_of. rewrite elem_of_list_to_set, list_elem_of_In, in_map_iff.
  intros (e & He & Hin). apply filter_In in Hin as [_ Hne].
  rewrite <- nonempty_lower, He in Hne. done.
Qed.

(** The pieces of [split] hold no separator. *)
Lemma split_sepfree (c : ascii) (s : string) :
  Forall (fun x => contains c x = false) (split c s).
Proof.
  induction s as [|a s IH]; [by repeat constructor|]. simpl.
  destruct (chr_eqb a c) eqn:Ha; [by constructor|].
  pose proof (split_nonempty c s). destruct (split c s) as [|h t]; [done|].
  inversion IH as [|? ? Hh Ht]; subst. constructor; [|done].
  simpl. by rewrite Ha, Hh.
Qed.

Lemma split_app_head (c : ascii) (a r : string) :
  contains c a = false -> split c (a +:+ String c r) = a :: split c r.
Proof.
  induction a as [|x a IH]; intros Ha.
  - rewrite app_nil_l. simpl. by rewrite (proj2 (chr_eqb_eq c c)).
  - simpl in Ha. apply orb_false_iff in Ha as [Hx Ha].
    rewrite app_cons. simpl. by rewrite Hx, (IH Ha).
Qed.

Lemma split_join (comps : list string) :
  Forall (fun x => contains sep x = false) comps -> comps <> [] ->
  split sep (PyStr.join "/" comps) = comps.
Proof.
  induction comps as [|c comps IH]; [done|]. intros Hall _.
  inversion Hall as [|? ? Hc Hrest]; subst.
  destruct comps as [|c' comps].
  - simpl. by apply split_no_sep.
  - change (PyStr.join "/" (c :: c' :: comps))
      with (c +:+ String sep (PyStr.join "/" (c' :: comps))).
    rewrite (split_app_head sep c _ Hc). f_equal. by apply IH.
Qed.

(** The loop of [normpath] on an absolute path keeps plain components
    only, and pushes plain components as they come. *)
Lemma norm_fold_plain (n : nat) (pieces stack : list string) :
  n <> 0 ->
  Forall (fun x => contains sep x = false) pieces ->
  Forall plain_comp stack ->
  Forall plain_comp (fold_left (norm_step n) pieces stack).
Proof.
  intros Hn. revert stack.
  induction pieces as [|c pieces IH]; intros stack Hp Hs; [done|].
  inversion Hp as [|? ? Hc Hrest]; subst. simpl. apply IH; [done|].
  unfold norm_step.
  destruct (String.eqb_spec c "") as [->|H0]; [done|].
  destruct (String.eqb_spec c ".") as [->|H1]; [done|]. cbn [orb].
  destruct (String.eqb_spec c "..") as [->|H2]; cbn [negb orb].
  - destruct n; [done|]. cbn [Nat.eqb andb orb].
    destruct stack as [|top stack]; [done|].
    inversion Hs as [|? ? Htop Hstack]; subst.
    destruct Htop as (_ & _ & _ & Htop). apply String.eqb_neq in Htop.
    by rewrite Htop.
  - by constructor.
Qed.

Lemma norm_fold_push (n : nat) (comps stack : list string) :
  Forall plain_comp comps ->
  fold_left (norm_step n) comps stack = rev comps ++ stack.
Proof.
  revert stack. induction comps as [|c comps IH]; intros stack Hall; [done|].
  inversion Hall as [|? ? Hc Hrest]; subst. simpl.
  rewrite (norm_step_plain n stack c Hc), (IH _ Hrest).
  by rewrite <- List.app_assoc.
Qed.

Lemma initial_slashes_abs (p : string) :
  isabs p = true -> initial_slashes p = 1 \/ initial_slashes p = 2.
Proof.
  unfold isabs, initial_slashes. intros ->.
  destruct (startswith "//" p && negb (startswith "///" p)); auto.
Qed.

Lemma join_not_abs (comps : list string) :
  Forall plain_comp comps -> startswith "/" (PyStr.join "/" comps) = false.
Proof.
  intros Hall. destruct comps as [|c comps]; [done|].
  inversion Hall as [|? ? Hc _]; subst. destruct Hc as (Hsep & Hne & _).
  assert (Hc : startswith "/" c = false).
  { destruct (startswith "/" c) eqn:Hs; [|done].
    apply startswith_contains in Hs. unfold sep in Hsep. congruence. }
  destruct comps as [|c' comps]; [exact Hc|].
  change (PyStr.join "/" (c :: c' :: comps))
    with (c +:+ "/" +:+ PyStr.join "/" (c' :: comps)).
  destruct c as [|x c]; [done|]. rewrite app_cons.
  by rewrite startswith_sep_cons in *.
Qed.

(** The normal form of an absolute path is absolute and is its own normal
    form. *)
Lemma normpath_abs (p : string) :
  isabs p = true ->
  isabs (normpath p) = true /\ normpath (normpath p) = normpath p.
Proof.
  intros Habs.
  assert (Hne : nonempty p = true) by (by destruct p).
  set (n := initial_slashes p).
  set (comps := rev (fold_left (norm_step n) (split sep p) [])).
  assert (Hn : n = 1 \/ n = 2) by (by apply initial_slashes_abs).
  assert (Hplain : Forall plain_comp comps).
  { unfold comps. apply Forall_rev, norm_fold_plain; [lia | | done].
    apply split_sepfree. }
  assert (Hsepfree : Forall (fun x => contains sep x = false) comps).
  { eapply Forall_impl; [exact Hplain|]. by intros x (Hx & _). }
  assert (Hres : normpath p = repeat_sep n +:+ PyStr.join "/" comps).
  { unfold normpath. rewrite Hne. cbn [negb]. fold n. fold comps.
    destruct Hn as [-> | ->]; done. }
  pose proof (join_not_abs comps Hplain) as Hj.
  assert (Hsplit : fold_left (norm_step n) (split sep (PyStr.join "/" comps)) []
                   = rev comps).
  { destruct comps as [|c cs] eqn:Hc; [done|].
    rewrite split_join by done. rewrite norm_fold_push by done.
    by rewrite List.app_nil_r. }
  rewrite Hres. clear Hres.
  remember (PyStr.join "/" comps) as J eqn:HJ.
  destruct Hn as [Hn|Hn]; rewrite Hn in *; cbn [repeat_sep].
  - change ("/" +:+ J) with (String "/" J). split; [done|].
    unfold normpath. cbn [nonempty negb].
    assert (Hi : initial_slashes (String "/" J) = 1).
    { unfold initial_slashes.
      change (startswith "/" (String "/" J)) with true.
      change (startswith "//" (String "/" J)) with (startswith "/" J).
      by rewrite Hj. }
    rewrite Hi.
    change (fold_left (norm_step 1) (split sep (String "/" J)) [])
      with (fold_left (norm_step 1) (split sep J) []).
    rewrite Hsplit, rev_involutive, <- HJ. done.
  - change ("//" +:+ J) with (String "/" (String "/" J)). split; [done|].
    unfold normpath. cbn [nonempty negb].
    assert (Hi : initial_slashes (String "/" (String "/" J)) = 2).
    { unfold initial_slashes.
      change (startswith "/" (String "/" (String "/" J))) with true.
      change (startswith "//" (String "/" (String "/" J))) with true.
      change (startswith "///" (String "/" (String "/" J)))
        with (startswith "/" J).
      by rewrite Hj. }
    rewrite Hi.
    change (fold_left (norm_step 2) (split sep (String "/" (String "/" J))) [])
      with (fold_left (norm_step 2) (split sep J) []).
    rewrite Hsplit, rev_involutive, <- HJ. done.
Qed.

(** [abspath] with an absolute working directory. *)
Lemma abspath_normal (cwd q : string) :
  isabs cwd = true ->
  isabs (abspath cwd q) = true /\ normpath (abspath cwd q) = abspath cwd q.
Proof.
  intros Hcwd. unfold abspath. apply normpath_abs.
  destruct (isabs q) eqn:Hq; [done|].
  unfold isabs, OsPath.join in *. rewrite Hq.
  destruct cwd as [|x cwd]; [done|].
  destruct (negb (nonempty (String x cwd)) || endswith_chr sep (String x cwd));
    by rewrite app_cons, startswith_sep_cons in *.
Qed.

End ScanFacts.

Section Scanner.

Variable E : env.

Import PyStr.

Local Abbreviation abspath := (OsPath.abspath (env_cwd E)).

(** Where a candidate comes from: the path handed to [abspath] and the
    name whose extension was tested. *)
Definition provenance (fs : filesystem) (paths : list string) (recursive : bool)
    (tested full : string) : Prop :=
  (full ∈ paths /\ Os.isfile fs full = true /\ tested = full)
  \/ (recursive = true
      /\ exists p root dirs files,
           p ∈ paths /\ Os.isfile fs p = false /\ Os.isdir fs p = true
           /\ (root, dirs, files) ∈ env_walk E p
           /\ tested ∈ files /\ full = OsPath.join root tested)
  \/ (recursive = false
      /\ exists p fn,
           p ∈ paths /\ Os.isfile fs p = false /\ Os.isdir fs p = true
           /\ fn ∈ env_listdir E p
           /\ full = OsPath.join p fn /\ Os.isfile fs full = true
           /\ tested = full).

Lemma candidate_provenance (fs : filesystem) (paths : list string)
    (recursive : bool) (extset : gset string) (c : string) :
  c ∈ iter_candidates E fs paths recursive extset ->
  exists tested full,
    c = abspath full /\ in_extset extset tested = true
    /\ provenance fs paths recursive tested full.
Proof.
  unfold iter_candidates. rewrite list_elem_of_In, in_flat_map.
  intros (p & Hp & Hc). apply list_elem_of_In in Hp.
  destruct (Os.isfile fs p) eqn:Hfile.
  - destruct (in_extset extset p) eqn:Hext; [|done].
    destruct Hc as [<-|[]]. exists p, p. split; [done|]. split; [done|].
    by left.
  - destruct (Os.isdir fs p) eqn:Hdir; [|done].
    destruct recursive.
    + apply in_flat_map in Hc as ([[root dirs] files] & Hw & Hc).
      apply in_flat_map in Hc as (fn & Hfn & Hc).
      destruct (in_extset extset fn) eqn:Hext; [|done].
      destruct Hc as [<-|[]]. exists fn, (OsPath.join root fn).
      split; [done|]. split; [done|]. right. left. split; [done|].
      apply list_elem_of_In in Hw, Hfn. by exists p, root, dirs, files.
    + apply in_flat_map in Hc as (fn & Hfn & Hc).
      destruct (Os.isfile fs (OsPath.join p fn) && in_extset extset (OsPath.join p fn))
        eqn:Hboth; [|done].
      apply andb_true_iff in Hboth as [Hf Hext].
      destruct Hc as [<-|[]]. exists (OsPath.join p fn), (OsPath.join p fn).
      split; [done|]. split; [done|]. right. right. split; [done|].
      apply list_elem_of_In in Hfn. by exists p, fn.
Qed.

(** X14: every candidate the scanner yields is the absolute form of an
    input that is an existing file, of a file name listed by the walk of an
    input directory (recursive mode), or of an existing file directly
    inside an input directory (non-recursive mode); an input that is
    neither a file nor a directory yields nothing.  The name tested has an
    extension, whose lower-case form is in the configured set: empty
    entries of the extension list never select files without
    extension. *)
Theorem candidates_come_from_inputs (fs : filesystem) (paths : list string)
    (recursive : bool) (extensions : string) (c : string) :
  c ∈ iter_candidates E fs paths recursive (extset_of extensions) ->
  exists tested full,
    c = abspath full
    /\ nonempty (ext_of tested) = true
    /\ lower (ext_of tested) ∈ extset_of extensions
    /\ provenance fs paths recursive tested full.
Proof.
  intros Hc.
  destruct (candidate_provenance fs paths recursive _ c Hc)
    as (tested & full & -> & Hext & Hprov).
  exists tested, full. split; [done|].
  unfold in_extset in Hext. apply bool_decide_eq_true in Hext.
  split; [|done]. destruct (ext_of tested) eqn:He; [|done].
  exfalso. by apply (ScanFacts.extset_no_empty extensions).
Qed.

(** X15: when the working directory is absolute, every candidate the
    scanner yields is an absolute path in normal form, so that [abspath]
    gives it back unchanged. *)
Theorem candidates_are_absolute (fs : filesystem) (paths : list string)
    (recursive : bool) (extset : gset string) (c : string) :
  OsPath.isabs (env_cwd E) = true ->
  c ∈ iter_candidates E fs paths recursive extset ->
  OsPath.isabs c = true /\ OsPath.normpath c = c /\ abspath c = c.
Proof.
  intros Hcwd Hc.
  destruct (candidate_provenance fs paths recursive _ c Hc)
    as (tested & full & -> & _).
  destruct (ScanFacts.abspath_normal (env_cwd E) full Hcwd) as [Habs Hnorm].
  split; [done|]. split; [done|].
  unfold OsPath.abspath at 1. by rewrite Habs.
Qed.

End Scanner.

(** * Further runs *)

Module MoreRuns.
Import Sample Runs.

(** X1 at a file whose original capture time does not parse and whose
    digitized time does. *)
Lemma primary_reader_sound_witness :
  exists process_file tags tag val,
    env_exifread (environment zeroed no_tool ["img1.jpg"]) = Some process_file
    /\ process_file "/photos/img1.jpg" = Ok tags
    /\ tag ∈ exifread_tags
    /\ tags !! tag = Some val
    /\ strptime val exif_pattern = Ok taken.
Proof.
  apply (primary_reader_sound strptime
           (environment zeroed no_tool ["img1.jpg"]) "/photos/img1.jpg"
           (State photos []) taken).
  vm_compute; reflexivity.
Defined.

(** X2 at a file for which the external tool reports a creation date with
    a timezone offset. *)
Lemma secondary_reader_sound_witness :
  exists proc info rest key val,
    env_exiftool (environment [] tool ["img2.jpg"]) "/photos/img2.jpg" = Ok proc
    /\ json_loads [(tool_text, JArr [JObj tool_info])]
         (PyStr.strip (stdout proc))
       = Ok (JArr (JObj info :: rest))
    /\ key ∈ exiftool_keys
    /\ info !! key = Some (JStr val)
    /\ PyStr.nonempty val = true
    /\ strptime (PyVal.strip_tz val) exif_pattern = Ok taken.
Proof.
  apply (secondary_reader_sound strptime
           (json_loads [(tool_text, JArr [JObj tool_info])])
           (environment [] tool ["img2.jpg"]) "/photos/img2.jpg"
           (State photos []) taken).
  vm_compute; reflexivity.
Defined.

(** The external tool reports the original capture time as a number and
    the creation date as a string. *)
Definition numeric_text : string :=
  "[{" +:+ quoted "DateTimeOriginal" +:+ ": 20230501, "
  +:+ quoted "CreateDate" +:+ ": " +:+ quoted stamp +:+ "}]".

Definition numeric_info : gmap string json :=
  list_to_map [("DateTimeOriginal", JNum 20230501);
               ("CreateDate", JStr stamp)].

Definition numeric_tool (p : string) : result completed_process :=
  Ok (CompletedProcess 0 numeric_text "").

(** X3 at that answer: the number under the first key hides the valid
    creation date under the second. *)
Lemma secondary_reader_gives_up_witness :
  fst (parse_exif_date_exiftool strptime
         (json_loads [(numeric_text, JArr [JObj numeric_info])])
         (environment [] numeric_tool ["img2.jpg"]) "/photos/img2.jpg"
         (State photos []))
  = Val None.
Proof.
  apply (secondary_reader_gives_up strptime
           (json_loads [(numeric_text, JArr [JObj numeric_info])])
           (environment [] numeric_tool ["img2.jpg"]) "/photos/img2.jpg"
           (State photos []) (CompletedProcess 0 numeric_text "")
           numeric_info [] [] "DateTimeOriginal" ["CreateDate"; "DateTime"]
           (JNum 20230501));
    vm_compute; reflexivity.
Defined.

(** X5 at a file without metadata, last modified on 2023-05-01 at
    10:20:30 UTC. *)
Lemma resolver_falls_back_witness :
  fst (get_image_datetime strptime (json_loads []) fromtimestamp shoot
         "/photos/img2.jpg" true (State photos []))
  = Val (if true then
           match Os.getmtime photos "/photos/img2.jpg" with
           | Ok ts =>
               match fromtimestamp ts with
               | Ok dt3 => Some dt3
               | Raise _ => None
               end
           | Raise _ => None
           end
         else None).
Proof.
  apply (resolver_falls_back strptime (json_loads []) fromtimestamp shoot
           "/photos/img2.jpg" true (State photos []));
    vm_compute; reflexivity.
Defined.

(** X7 at the default pattern's base name, in a directory that holds the
    canonical name already. *)
Lemma target_keeps_directory_and_extension_witness :
  exists p,
    unique_target_path (OsPath.dirname "/photos/img1.jpg")
      "2023-05-01_10-20-30" "jpg" (State (directory_of [canonical] 0) [])
    = (Val p, State (directory_of [canonical] 0) [])
    /\ OsPath.dirname p = OsPath.dirname "/photos/img1.jpg"
    /\ ext_of p = "jpg".
Proof.
  apply (target_keeps_directory_and_extension "/photos/img1.jpg"
           "2023-05-01_10-20-30" "jpg" (State (directory_of [canonical] 0) []));
    vm_compute; reflexivity.
Defined.

(** X13 at the scenario of the specification. *)
Lemma simulation_is_repeatable_witness :
  exists tr,
    run shoot (arguments true default_format) photos
    = (Val 0%Z, State photos ([] ++ tr))
    /\ main strptime strftime (json_loads []) fromtimestamp shoot
         (arguments true default_format) (State photos ([] ++ tr))
       = (Val 0%Z, State photos (([] ++ tr) ++ tr)).
Proof.
  apply (simulation_is_repeatable strptime strftime (json_loads [])
           fromtimestamp shoot (arguments true default_format)
           (State photos [])).
  reflexivity.
Defined.

(** X14 at the directory of the scenario, scanned without recursion. *)
Lemma candidates_come_from_inputs_witness :
  exists tested full,
    "/photos/img1.jpg" = OsPath.abspath (env_cwd shoot) full
    /\ PyStr.nonempty (ext_of tested) = true
    /\ PyStr.lower (ext_of tested)
       ∈ extset_of (extensions (arguments false default_format))
    /\ provenance shoot photos ["/photos"] false tested full.
Proof.
  apply (candidates_come_from_inputs shoot photos ["/photos"] false
           (extensions (arguments false default_format)) "/photos/img1.jpg").
  apply list_elem_of_In. vm_compute. left. reflexivity.
Defined.

(** X15 at a relative input: the candidates are made absolute against the
    working directory. *)
Lemma candidates_are_absolute_witness :
  OsPath.isabs "/photos/img2.jpg" = true
  /\ OsPath.normpath "/photos/img2.jpg" = "/photos/img2.jpg"
  /\ OsPath.abspath (env_cwd shoot) "/photos/img2.jpg" = "/photos/img2.jpg".
Proof.
  apply (candidates_are_absolute shoot
           (<["./img2.jpg" := Inode File 0]> photos) ["./img2.jpg"] false
           (extset_of (extensions (arguments false default_format)))
           "/photos/img2.jpg").
  - reflexivity.
  - apply list_elem_of_In. vm_compute. left. reflexivity.
Defined.

End MoreRuns.
